(** * convert_to_ggml.py: the conversion and quantization pipeline

    A shallow embedding of
    [crates/atc_recognition_rs/tools/fine_tuning_vibe_coded/convert_to_ggml.py].

    The script is a sequence of filesystem operations, logger calls and calls
    to external collaborators (subprocesses, the transformers and torch
    libraries, the network).  The embedding threads an explicit [World]
    (filesystem, log, trace of external calls) through an exception monad;
    the external collaborators are the fields of an [Env] record, so every
    theorem holds for every behaviour they may have. *)

From Stdlib Require Import String Ascii List ZArith QArith Qround Bool Lia.
From Stdlib Require DecimalString.
Import ListNotations.

Open Scope string_scope.
Open Scope Z_scope.

(* ================================================================== *)
(** * Strings *)

Module Str.

(** [s.startswith(p)] *)
Fixpoint startswith (p s : string) : bool :=
  match p, s with
  | EmptyString, _ => true
  | String a p', String b s' => Ascii.eqb a b && startswith p' s'
  | String _ _, EmptyString => false
  end.

(** [needle in hay] on Python strings *)
Fixpoint contains (needle hay : string) : bool :=
  startswith needle hay ||
  match hay with
  | EmptyString => false
  | String _ t => contains needle t
  end.

(** [name[i:]] for [i = name.rfind('.')], [None] when there is no dot *)
Fixpoint rfind_dot_tail (s : string) : option string :=
  match s with
  | EmptyString => None
  | String c t =>
      match rfind_dot_tail t with
      | Some r => Some r
      | None => if Ascii.eqb c "." then Some s else None
      end
  end.

(** [sep.join(l)] *)
Fixpoint join (sep : string) (l : list string) : string :=
  match l with
  | [] => ""
  | [x] => x
  | x :: r => x ++ sep ++ join sep r
  end.

(** [s.split(sep)] for a one-character separator: [acc] is the piece being
    read, reversed by appending at its end. *)
Fixpoint split_on (sep : ascii) (acc s : string) : list string :=
  match s with
  | EmptyString => [acc]
  | String c t =>
      if Ascii.eqb c sep then acc :: split_on sep "" t
      else split_on sep (acc ++ String c "") t
  end.

Definition in_list (s : string) (l : list string) : bool :=
  existsb (String.eqb s) l.

End Str.

(* ================================================================== *)
(** * pathlib.Path *)

(** A path is the list of its components ([Path.parts]); [Path(".")] is the
    empty list.  Two paths are equal when their components are, as in
    pathlib.  The filesystem below is keyed by paths as the script spells
    them: symbolic links, [..] and an absolute and a relative spelling of
    one file are not identified. *)
Definition Path := list string.

Module PathLib.

(** [Path(s)]: split on the separator, drop empty and [.] components, keep
    a leading root.  Exactly two leading slashes are a root of their own,
    as in [PurePosixPath]; one, or three and more, are the root [/]. *)
Definition of_string (s : string) : Path :=
  let parts := filter (fun c => negb (String.eqb c "" || String.eqb c "."))
                      (Str.split_on "/" "" s) in
  if Str.startswith "//" s && negb (Str.startswith "///" s)
  then "//" :: parts
  else if Str.startswith "/" s then "/" :: parts else parts.

(** [p / c] for a single component [c] *)
Definition div (p : Path) (c : string) : Path := (p ++ [c])%list.

(** [p.parent] *)
Definition parent (p : Path) : Path := removelast p.

(** [p.name] *)
Definition name (p : Path) : string := last p "".

(** [p.suffix]: the part of the name from its last dot, empty when that dot
    is the first or the last character of the name or is absent. *)
Definition suffix (p : Path) : string :=
  match name p with
  | EmptyString => ""
  | String _ t =>
      match Str.rfind_dot_tail t with
      | Some r => if (String.length r =? 1)%nat then "" else r
      | None => ""
      end
  end.

(** [str(p)] *)
Definition str (p : Path) : string :=
  match p with
  | [] => "."
  | "/" :: r => "/" ++ Str.join "/" r
  | "//" :: r => "//" ++ Str.join "/" r
  | _ => Str.join "/" p
  end.

(** [p.is_absolute()] *)
Definition is_absolute (p : Path) : bool :=
  match p with
  | "/" :: _ => true
  | "//" :: _ => true
  | _ => false
  end.



Fixpoint eqb (p q : Path) : bool :=
  match p, q with
  | [], [] => true
  | a :: p', b :: q' => String.eqb a b && eqb p' q'
  | _, _ => false
  end.

(** [p] is [q] or an ancestor of [q] *)
Fixpoint is_prefix (p q : Path) : bool :=
  match p, q with
  | [], _ => true
  | a :: p', b :: q' => String.eqb a b && is_prefix p' q'
  | _ :: _, [] => false
  end.

End PathLib.

Notation "p // c" := (PathLib.div p c) (at level 40, left associativity).

(* ================================================================== *)
(** * Exceptions *)

(** The exception classes the script can meet.  All of them derive from
    [Exception]; only [RuntimeError] is caught by [except RuntimeError]. *)
Inductive exn_class :=
| RuntimeError
| AttributeError
| ImportError
| FileNotFoundError
| FileExistsError
| NotADirectoryError
| IsADirectoryError
| OSError
| OtherException.

(** An exception object: its class and [str(e)]. *)
Inductive exn := Exn (cls : exn_class) (msg : string).

Definition exn_cls (e : exn) : exn_class := let 'Exn c _ := e in c.
Definition str_exn (e : exn) : string := let 'Exn _ m := e in m.

Definition is_RuntimeError (e : exn) : bool :=
  match exn_cls e with RuntimeError => true | _ => false end.

(* ================================================================== *)
(** * Data of the script *)

(** [model.config]: attribute name to value. *)
Definition Config := list (string * Z).

Fixpoint getattr (c : Config) (name : string) : option Z :=
  match c with
  | [] => None
  | (k, v) :: r => if String.eqb k name then Some v else getattr r name
  end.

(** [model.state_dict()]: parameter name to (a handle on) its tensor. *)
Definition StateDict := list (string * Z).

Record Model := { config : Config; state_dict : StateDict }.

(** The [dims] dictionary, in insertion order. *)
Definition Dims := list (string * Z).

(** The dictionary [{"dims": dims, "model_state_dict": ...}] handed to
    [torch.save]. *)
Record Checkpoint := { dims : Dims; model_state_dict : StateDict }.

(** [subprocess.CompletedProcess] *)
Record CompletedProcess :=
  { returncode : Z; stdout : string; stderr : string }.

(* ================================================================== *)
(** * The filesystem *)

(** What a regular file holds. *)
Inductive content :=
| Pickle (c : Checkpoint)    (* written by torch.save *)
| Downloaded (url : string)  (* written by urllib.request.urlretrieve *)
| RandomMelFilters           (* np.savez of np.random.rand(80, 201) *)
| TokenizerVocab             (* json.dump(tokenizer.get_vocab()) *)
| MinimalVocab               (* json.dump of the 51864 placeholder tokens *)
| Binary (st_size : Z).      (* written by an external tool *)

Inductive node := Dir | File (c : content).

(** The entries of the filesystem.  The order of the list is the order in
    which [iterdir] yields them; the current directory [Path(".")] always
    exists and is not listed.  There are no symbolic links, and the
    operations below fail for the reasons the entries show (a missing
    entry, a file where a directory is needed and the reverse): failures
    for want of permission or of space are not part of the model, so a
    statement that needs a write to succeed takes that as a hypothesis. *)
Definition FS := list (Path * node).

Module Fs.

Fixpoint find (fs : FS) (p : Path) : option node :=
  match fs with
  | [] => None
  | (q, n) :: r => if PathLib.eqb q p then Some n else find r p
  end.

Definition lookup (fs : FS) (p : Path) : option node :=
  match p with
  | [] => Some Dir
  | _ => find fs p
  end.

(** [p.exists()] *)
Definition exists_ (fs : FS) (p : Path) : bool :=
  match lookup fs p with Some _ => true | None => false end.

(** [p.is_dir()] *)
Definition is_dir (fs : FS) (p : Path) : bool :=
  match lookup fs p with Some Dir => true | _ => false end.

Definition remove (fs : FS) (p : Path) : FS :=
  filter (fun e => negb (PathLib.eqb (fst e) p)) fs.

(** Replace the node at [p], or add [p] as the last entry. *)
Fixpoint set (fs : FS) (p : Path) (n : node) : FS :=
  match fs with
  | [] => [(p, n)]
  | (q, m) :: r =>
      if PathLib.eqb q p then (q, n) :: r else (q, m) :: set r p n
  end.

Definition errno (c : exn_class) (what : string) (p : Path) : exn :=
  Exn c (what ++ ": '" ++ PathLib.str p ++ "'").

Definition ENOENT := errno FileNotFoundError "[Errno 2] No such file or directory".
Definition EEXIST := errno FileExistsError "[Errno 17] File exists".
Definition ENOTDIR := errno NotADirectoryError "[Errno 20] Not a directory".
Definition EISDIR := errno IsADirectoryError "[Errno 21] Is a directory".
Definition ENOTEMPTY := errno OSError "[Errno 39] Directory not empty".
Definition EINVAL := errno OSError "[Errno 22] Invalid argument".

(** [pre] exists; create each component of [rest] below it that is
    missing. *)
Fixpoint mkdir_from (target pre : Path) (rest : list string) (fs : FS)
  : exn + FS :=
  match rest with
  | [] => inr fs
  | c :: rest' =>
      let p := pre // c in
      match lookup fs p with
      | Some Dir => mkdir_from target p rest' fs
      | Some (File _) =>
          inl (match rest' with
               | [] => EEXIST target
               | _ => ENOTDIR target
               end)
      | None => mkdir_from target p rest' (set fs p Dir)
      end
  end.

(** [p.mkdir(parents=True, exist_ok=True)] *)
Definition mkdir (fs : FS) (p : Path) : exn + FS := mkdir_from p [] p fs.

(** Opening [p] for writing and writing [c]: the parent must be a
    directory and [p] must not be one. *)
Definition write (fs : FS) (p : Path) (c : content) : exn + FS :=
  match p with
  | [] => inl (EISDIR p)
  | _ =>
      match lookup fs (PathLib.parent p) with
      | None => inl (ENOENT p)
      | Some (File _) => inl (ENOTDIR p)
      | Some Dir =>
          match lookup fs p with
          | Some Dir => inl (EISDIR p)
          | _ => inr (set fs p (File c))
          end
      end
  end.

(** [p.unlink()] *)
Definition unlink (fs : FS) (p : Path) : exn + FS :=
  match lookup fs p with
  | None => inl (ENOENT p)
  | Some Dir => inl (EISDIR p)
  | Some (File _) => inr (remove fs p)
  end.

(** The entries directly below [d]. *)
Definition children (fs : FS) (d : Path) : list Path :=
  map fst
    (filter (fun e => match fst e with
                      | [] => false
                      | q => PathLib.eqb (PathLib.parent q) d
                      end) fs).

(** [list(d.iterdir())] *)
Definition iterdir (fs : FS) (d : Path) : exn + list Path :=
  match lookup fs d with
  | None => inl (ENOENT d)
  | Some (File _) => inl (ENOTDIR d)
  | Some Dir => inr (children fs d)
  end.

(** Move the entry at [a], and everything below it, to [b]. *)
Definition rekey (a b q : Path) : Path :=
  if PathLib.is_prefix a q then (b ++ skipn (length a) q)%list else q.

(** [a.rename(b)] with the semantics of POSIX [rename(2)]. *)
Definition rename (fs : FS) (a b : Path) : exn + FS :=
  match lookup fs a, a, b with
  | None, _, _ => inl (ENOENT a)
  | Some _, [], _ | Some _, _, [] => inl (EINVAL a)
  | Some src, _, _ =>
      if PathLib.eqb a b then inr fs
      else if PathLib.is_prefix a b then inl (EINVAL a)
      else
        match lookup fs (PathLib.parent b) with
        | None => inl (ENOENT a)
        | Some (File _) => inl (ENOTDIR a)
        | Some Dir =>
            match src, lookup fs b with
            | File _, Some Dir => inl (EISDIR a)
            | Dir, Some (File _) => inl (ENOTDIR a)
            | Dir, Some Dir =>
                match children fs b with
                | [] => inr (map (fun e => (rekey a b (fst e), snd e))
                                 (remove fs b))
                | _ => inl (ENOTEMPTY a)
                end
            | _, _ => inr (map (fun e => (rekey a b (fst e), snd e))
                               (remove fs b))
            end
        end
  end.

End Fs.

(* ================================================================== *)
(** * The world and the exception monad *)

Inductive Level := INFO | ERROR.

(** Calls that leave the process. *)
Inductive Event :=
| SubprocessRun (argv : list string) (cwd : option Path)
| FromPretrained (model_path : Path)
| TorchSave (c : Checkpoint) (dst : Path)
| UrlRetrieve (url : string) (dst : Path)
| TokenizerFromPretrained (name : string).

Record World :=
  { fs : FS;
    log : list (Level * string);   (* oldest record first *)
    trace : list Event }.          (* oldest call first *)

(** The outcome of running a piece of the script: it returns or raises, and
    either way leaves a world behind. *)
Inductive Result (A : Type) :=
| Ok (a : A) (w : World)
| Raise (e : exn) (w : World).
Arguments Ok {A} a w.
Arguments Raise {A} e w.

Definition world_of {A} (r : Result A) : World :=
  match r with Ok _ w => w | Raise _ w => w end.

Definition M (A : Type) := World -> Result A.

Definition ret {A} (a : A) : M A := fun w => Ok a w.

Definition bind {A B} (m : M A) (k : A -> M B) : M B :=
  fun w => match m w with
           | Ok a w' => k a w'
           | Raise e w' => Raise e w'
           end.

Definition raise {A} (e : exn) : M A := fun w => Raise e w.

(** [try: m  except <the classes accepted by catches> as e: handler e] *)
Definition try_except {A} (m : M A) (catches : exn -> bool)
           (handler : exn -> M A) : M A :=
  fun w => match m w with
           | Ok a w' => Ok a w'
           | Raise e w' => if catches e then handler e w' else Raise e w'
           end.

Definition except_Exception (e : exn) : bool := true.
Definition except_RuntimeError (e : exn) : bool := is_RuntimeError e.

Declare Scope py_scope.
Delimit Scope py_scope with py.
Notation "x <- m ;; k" := (bind m (fun x => k))
  (at level 61, m at next level, right associativity) : py_scope.
Notation "m ;; k" := (bind m (fun _ => k))
  (at level 61, right associativity) : py_scope.
Open Scope py_scope.

Definition get_fs : M FS := fun w => Ok (fs w) w.

Definition logger (l : Level) (msg : string) : M unit :=
  fun w => Ok tt {| fs := fs w; log := (log w ++ [(l, msg)])%list;
                    trace := trace w |}.

Definition logger_info := logger INFO.
Definition logger_error := logger ERROR.

Definition emit (ev : Event) : M unit :=
  fun w => Ok tt {| fs := fs w; log := log w;
                    trace := (trace w ++ [ev])%list |}.

(** Run a filesystem operation that changes the filesystem. *)
Definition fs_do (op : FS -> exn + FS) : M unit :=
  fun w => match op (fs w) with
           | inr fs' => Ok tt {| fs := fs'; log := log w; trace := trace w |}
           | inl e => Raise e w
           end.

(** Run a filesystem operation that only reads. *)
Definition fs_read {A} (op : FS -> exn + A) : M A :=
  fun w => match op (fs w) with
           | inr a => Ok a w
           | inl e => Raise e w
           end.

Definition path_exists (p : Path) : M bool :=
  fun w => Ok (Fs.exists_ (fs w) p) w.

(* ================================================================== *)
(** * The external collaborators *)

Record Env :=
  { (** [Path.cwd()] *)
    cwd : Path;
    (** [sys.executable] *)
    sys_executable : string;
    (** [subprocess.run(argv, cwd=...)]: the process may fail to start;
        otherwise it exits with a status, its captured output, and the
        filesystem it leaves. *)
    subprocess_run :
      list string -> option Path -> FS -> exn + (CompletedProcess * FS);
    (** [import name]: [Some e] when the import raises [e]. *)
    import_module : string -> option exn;
    (** [WhisperForConditionalGeneration.from_pretrained(model_path)] *)
    from_pretrained : Path -> FS -> exn + Model;
    (** [urllib.request.urlretrieve(url, ...)]: [Some e] when it raises. *)
    urlretrieve : string -> option exn;
    (** [WhisperTokenizer.from_pretrained(name).get_vocab()] *)
    tokenizer_get_vocab : string -> option exn;
    (** [st_size] of a file the script wrote itself, and of a directory. *)
    size_of_content : content -> Z;
    size_of_dir : Z }.

(** [p.stat().st_size] *)
Definition st_size (env : Env) (fs : FS) (p : Path) : exn + Z :=
  match Fs.lookup fs p with
  | None => inl (Fs.ENOENT p)
  | Some Dir => inr (size_of_dir env)
  | Some (File (Binary n)) => inr n
  | Some (File c) => inr (size_of_content env c)
  end.

(* ================================================================== *)
(** * Small Python helpers *)

(** A [dict] with string keys, in insertion order. *)
Fixpoint dict_set {V} (d : list (string * V)) (k : string) (v : V)
  : list (string * V) :=
  match d with
  | [] => [(k, v)]
  | (k', v') :: r =>
      if String.eqb k' k then (k', v) :: r else (k', v') :: dict_set r k v
  end.

Fixpoint dict_get {V} (d : list (string * V)) (k : string) : option V :=
  match d with
  | [] => None
  | (k', v) :: r => if String.eqb k' k then Some v else dict_get r k
  end.

Definition dict_keys {V} (d : list (string * V)) : list string := map fst d.

(** The integer nearest to [q], ties to the even one. *)
Definition round_half_even (q : Q) : Z :=
  let f := Qfloor q in
  match Qcompare (q - inject_Z f) (1 # 2) with
  | Lt => f
  | Gt => f + 1
  | Eq => if Z.even f then f else f + 1
  end.

(** [round(x, ndigits=1)].  A float is modelled by the rational it stands
    for: [st_size / 2**20] is exact in binary floating point, and Python
    rounds the exact value, ties to even. *)
Definition round1 (x : Q) : Q := round_half_even (x * 10) # 10.

Definition str_Z (z : Z) : string :=
  DecimalString.NilZero.string_of_int (Z.to_int z).

(** A number of tenths printed with one decimal, as [f"{x:.1f}"] and as
    [str] of a float already rounded to one decimal print it. *)
Definition str_tenths (t : Z) : string :=
  (if t <? 0 then "-" else "") ++
  str_Z (Z.abs t / 10) ++ "." ++ str_Z (Z.abs t mod 10).

(** [f"{x:.1f}"] *)
Definition format_1f (x : Q) : string := str_tenths (round_half_even (x * 10)).

(** [str(x)] for [x] the result of [round1] *)
Definition str_rounded (x : Q) : string := str_tenths (Qnum x).

Definition nl : string := String "010" "".

(* ================================================================== *)
(** * The script *)

Section Script.

Variable env : Env.

(** [subprocess.run(argv, cwd=cwd)] *)
Definition run (argv : list string) (dir : option Path)
  : M CompletedProcess :=
  emit (SubprocessRun argv dir);;
  fun w =>
    match subprocess_run env argv dir (fs w) with
    | inl e => Raise e w
    | inr (cp, fs') =>
        Ok cp {| fs := fs'; log := log w; trace := trace w |}
    end.

(** [import name] *)
Definition import (name : string) : M unit :=
  match import_module env name with
  | Some e => raise e
  | None => ret tt
  end.

(** [p.absolute()] *)
Definition absolute (p : Path) : Path :=
  if PathLib.is_absolute p then p else (cwd env ++ p)%list.

Definition str_abs (p : Path) : string := PathLib.str (absolute p).

(** [open(p, 'w')] followed by writing [c] *)
Definition write_file (p : Path) (c : content) : M unit :=
  fs_do (fun fs => Fs.write fs p c).

Definition mkdir (p : Path) : M unit := fs_do (fun fs => Fs.mkdir fs p).

(** [urllib.request.urlretrieve(url, dst)] *)
Definition url_retrieve (url : string) (dst : Path) : M unit :=
  emit (UrlRetrieve url dst);;
  match urlretrieve env url with
  | Some e => raise e
  | None => write_file dst (Downloaded url)
  end.

(** [torch.save(checkpoint, dst)] *)
Definition torch_save (c : Checkpoint) (dst : Path) : M unit :=
  emit (TorchSave c dst);;
  write_file dst (Pickle c).

(** ** download_whisper_cpp (lines 16-39) *)

Definition download_whisper_cpp : M Path :=
  let whisper_cpp_dir := PathLib.of_string "./whisper.cpp" in
  present <- path_exists whisper_cpp_dir;;
  if present then
    logger_info "✅ whisper.cpp already exists";;
    ret whisper_cpp_dir
  else
    logger_info "📥 Downloading whisper.cpp...";;
    result <- run ["git"; "clone";
                   "https://github.com/ggerganov/whisper.cpp.git"]
                  (Some (cwd env));;
    if negb (returncode result =? 0) then
      raise (Exn RuntimeError "Failed to clone whisper.cpp")
    else
      logger_info "🔨 Building whisper.cpp...";;
      result <- run ["make"] (Some whisper_cpp_dir);;
      if negb (returncode result =? 0) then
        raise (Exn RuntimeError "Failed to build whisper.cpp")
      else
        ret whisper_cpp_dir.

(** ** setup_whisper_assets (lines 70-128) *)

Definition mel_filters_url :=
  "https://github.com/openai/whisper/raw/main/whisper/assets/mel_filters.npz".
Definition vocab_url :=
  "https://github.com/openai/whisper/raw/main/whisper/assets/gpt2/vocab.json".

Definition setup_whisper_assets (whisper_cpp_dir : Path) : M unit :=
  let assets_dir := whisper_cpp_dir // "whisper" // "assets" in
  let mel_filters_file := assets_dir // "mel_filters.npz" in
  let gpt2_dir := assets_dir // "gpt2" in
  let vocab_file := gpt2_dir // "vocab.json" in
  have_mel <- path_exists mel_filters_file;;
  have_vocab <- path_exists vocab_file;;
  if have_mel && have_vocab then
    logger_info "✅ Whisper assets already exist"
  else
    logger_info "📥 Setting up whisper assets...";;
    mkdir assets_dir;;
    mkdir gpt2_dir;;
    import "urllib.request";;
    import "json";;
    have_mel <- path_exists mel_filters_file;;
    (if negb have_mel then
       try_except
         (url_retrieve mel_filters_url mel_filters_file;;
          logger_info "✅ Downloaded mel_filters.npz")
         except_Exception
         (fun e =>
            logger_error ("Failed to download mel_filters.npz: " ++ str_exn e);;
            import "numpy";;
            write_file mel_filters_file RandomMelFilters;;
            logger_info "✅ Created minimal mel_filters.npz")
     else ret tt);;
    have_vocab <- path_exists vocab_file;;
    if negb have_vocab then
      try_except
        (import "transformers";;
         emit (TokenizerFromPretrained "openai/whisper-small");;
         match tokenizer_get_vocab env "openai/whisper-small" with
         | Some e => raise e
         | None =>
             write_file vocab_file TokenizerVocab;;
             logger_info "✅ Created vocab.json from transformers"
         end)
        except_Exception
        (fun e =>
           logger_error ("Failed to create vocab.json: " ++ str_exn e);;
           try_except
             (url_retrieve vocab_url vocab_file;;
              logger_info "✅ Downloaded vocab.json from GitHub")
             except_Exception
             (fun e2 =>
                logger_error ("Failed to download vocab.json: " ++ str_exn e2);;
                write_file vocab_file MinimalVocab;;
                logger_info "✅ Created minimal vocab.json"))
    else ret tt.

(** ** convert_hf_to_ggml (lines 130-225) *)

(** [model.config.<name>] *)
Definition config_attr (c : Config) (name : string) : exn + Z :=
  match getattr c name with
  | Some v => inr v
  | None =>
      inl (Exn AttributeError
             ("'WhisperConfig' object has no attribute '" ++ name ++ "'"))
  end.

(** The [dims] dictionary literal (lines 147-158): the values are
    evaluated in the order written, the first missing attribute raises. *)
Definition build_dims (c : Config) : exn + Dims :=
  match config_attr c "num_mel_bins" with inl e => inl e | inr n_mels =>
  match config_attr c "max_source_positions" with inl e => inl e | inr n_audio_ctx =>
  match config_attr c "d_model" with inl e => inl e | inr n_audio_state =>
  match config_attr c "encoder_attention_heads" with inl e => inl e | inr n_audio_head =>
  match config_attr c "encoder_layers" with inl e => inl e | inr n_audio_layer =>
  match config_attr c "vocab_size" with inl e => inl e | inr n_vocab =>
  match config_attr c "max_target_positions" with inl e => inl e | inr n_text_ctx =>
  match config_attr c "d_model" with inl e => inl e | inr n_text_state =>
  match config_attr c "decoder_attention_heads" with inl e => inl e | inr n_text_head =>
  match config_attr c "decoder_layers" with inl e => inl e | inr n_text_layer =>
    inr [ ("n_mels", n_mels);
          ("n_audio_ctx", n_audio_ctx);
          ("n_audio_state", n_audio_state);
          ("n_audio_head", n_audio_head);
          ("n_audio_layer", n_audio_layer);
          ("n_vocab", n_vocab);
          ("n_text_ctx", n_text_ctx);
          ("n_text_state", n_text_state);
          ("n_text_head", n_text_head);
          ("n_text_layer", n_text_layer) ]
  end end end end end end end end end end.

Definition lift_exn {A} (r : exn + A) : M A :=
  match r with inl e => raise e | inr a => ret a end.

(** Lines 141-172: load the model, build the checkpoint in the format
    whisper.cpp expects and save it next to the output.  Returns
    [(compatible_pt, output_dir)]. *)
Definition save_compatible_checkpoint (model_path output_path : Path)
  : M (Path * Path) :=
  logger_info "Loading Hugging Face model...";;
  emit (FromPretrained model_path);;
  model <- fs_read (from_pretrained env model_path);;
  logger_info "Creating compatible checkpoint format...";;
  dims <- lift_exn (build_dims (config model));;
  let checkpoint :=
    {| dims := dims; model_state_dict := state_dict model |} in
  let output_dir := PathLib.parent output_path in
  mkdir output_dir;;
  let compatible_pt := output_dir // "whisper_compatible.pt" in
  logger_info ("Saving compatible checkpoint to "
               ++ PathLib.str compatible_pt ++ "...");;
  torch_save checkpoint compatible_pt;;
  ret (compatible_pt, output_dir).

Definition convert_script_of (whisper_cpp_dir : Path) : Path :=
  whisper_cpp_dir // "models" // "convert-pt-to-ggml.py".

Definition converter_argv (whisper_cpp_dir compatible_pt output_dir : Path)
  : list string :=
  [ sys_executable env;
    str_abs (convert_script_of whisper_cpp_dir);
    str_abs compatible_pt;
    str_abs whisper_cpp_dir;
    str_abs output_dir;
    "use-f32" ].

(** Lines 174-197: run whisper.cpp's conversion script on the saved
    checkpoint. *)
Definition run_convert_script (whisper_cpp_dir compatible_pt output_dir : Path)
  : M unit :=
  let convert_script := convert_script_of whisper_cpp_dir in
  present <- path_exists convert_script;;
  if negb present then
    logger_error ("Conversion script not found: " ++ PathLib.str convert_script);;
    raise (Exn RuntimeError
             ("Conversion script not found: " ++ PathLib.str convert_script))
  else
    logger_info ("Using conversion script: " ++ PathLib.str convert_script);;
    logger_info "Converting compatible checkpoint...";;
    result <- run (converter_argv whisper_cpp_dir compatible_pt output_dir)
                  None;;
    if negb (returncode result =? 0) then
      logger_error "Conversion failed:";;
      logger_error ("stderr: " ++ stderr result);;
      logger_error ("stdout: " ++ stdout result);;
      raise (Exn RuntimeError "Failed to convert model to GGML format")
    else ret tt.

(** The test of line 204 *)
Definition is_ggml_file (file : Path) : bool :=
  Str.in_list (PathLib.suffix file) [".bin"; ".ggml"]
  && Str.contains "ggml" (PathLib.name file).

(** The loop of lines 203-206 over the entries [iterdir] yields. *)
Fixpoint scan_ggml_files (entries : list Path) (ggml_files : list Path)
  : M (list Path) :=
  match entries with
  | [] => ret ggml_files
  | file :: rest =>
      if is_ggml_file file then
        logger_info ("  - " ++ PathLib.str file);;
        scan_ggml_files rest (ggml_files ++ [file])%list
      else scan_ggml_files rest ggml_files
  end.

(** Lines 199-215: find what the conversion script wrote and move it to
    [output_path]. *)
Definition collect_ggml_output (output_dir output_path : Path) : M unit :=
  logger_info ("Conversion completed. Output directory: "
               ++ PathLib.str output_dir);;
  logger_info "Generated files:";;
  entries <- fs_read (fun fs => Fs.iterdir fs output_dir);;
  ggml_files <- scan_ggml_files entries [];;
  match ggml_files with
  | actual_output :: _ =>
      if negb (PathLib.eqb actual_output output_path) then
        fs_do (fun fs => Fs.rename fs actual_output output_path);;
        logger_info ("  → Renamed to " ++ PathLib.str output_path)
      else ret tt
  | [] =>
      raise (Exn RuntimeError
               ("No GGML output file found in " ++ PathLib.str output_dir))
  end.

Definition convert_failed : exn :=
  Exn RuntimeError "Failed to convert model to GGML format".

(** The body of the [try] (lines 135-221) *)
Definition convert_hf_to_ggml_body
           (model_path output_path whisper_cpp_dir : Path) : M unit :=
  import "torch";;
  import "transformers";;
  setup_whisper_assets whisper_cpp_dir;;
  saved <- save_compatible_checkpoint model_path output_path;;
  let '(compatible_pt, output_dir) := saved in
  run_convert_script whisper_cpp_dir compatible_pt output_dir;;
  collect_ggml_output output_dir output_path;;
  fs_do (fun fs => Fs.unlink fs compatible_pt);;
  logger_info "Cleaned up temporary files";;
  logger_info ("✅ Converted to GGML: " ++ PathLib.str output_path).

Definition convert_hf_to_ggml
           (model_path output_path whisper_cpp_dir : Path) : M unit :=
  logger_info ("🔄 Converting " ++ PathLib.str model_path
               ++ " to GGML format...");;
  try_except
    (convert_hf_to_ggml_body model_path output_path whisper_cpp_dir)
    except_Exception
    (fun e =>
       logger_error ("Failed to convert model: " ++ str_exn e);;
       raise convert_failed).

(** ** quantize_model (lines 227-264) *)

(** An entry of [results]: [{"path": ..., "size_mb": ...}] *)
Record Artifact := { path : string; size_mb : Q }.

Definition Results := list (string * Artifact).

Definition quantizations : list (string * string) :=
  [ ("q8_0", "Best quality quantized");
    ("q5_0", "Good balance");
    ("q4_0", "Smallest size") ].

Definition quantize_binary_of (whisper_cpp_dir : Path) : Path :=
  whisper_cpp_dir // "build" // "bin" // "quantize".

Definition quantized_path (output_dir : Path) (quant_type : string) : Path :=
  output_dir // ("whisper-atc-" ++ quant_type ++ ".bin").

Definition quantize_argv (quantize_binary ggml_path output_path : Path)
           (quant_type : string) : list string :=
  [ PathLib.str quantize_binary;
    PathLib.str ggml_path;
    PathLib.str output_path;
    quant_type ].

(** One pass through the body of the loop (lines 243-262). *)
Definition quantize_one (quantize_binary ggml_path output_dir : Path)
           (results : Results) (quant : string * string) : M Results :=
  let '(quant_type, description) := quant in
  let output_path := quantized_path output_dir quant_type in
  logger_info ("🔧 Quantizing to " ++ quant_type
               ++ " (" ++ description ++ ")...");;
  result <- run (quantize_argv quantize_binary ggml_path output_path
                               quant_type) None;;
  if returncode result =? 0 then
    size <- fs_read (fun fs => st_size env fs output_path);;
    let mb := (inject_Z size / inject_Z (1024 * 1024))%Q in
    let results' :=
      dict_set results quant_type
               {| path := PathLib.str output_path; size_mb := round1 mb |} in
    logger_info ("✅ " ++ quant_type ++ ": " ++ format_1f mb ++ " MB");;
    ret results'
  else
    logger_error ("❌ Failed to quantize to " ++ quant_type);;
    ret results.

(** The [for] loop over [quantizations] *)
Fixpoint quantize_loop (quantize_binary ggml_path output_dir : Path)
         (todo : list (string * string)) (results : Results) : M Results :=
  match todo with
  | [] => ret results
  | quant :: rest =>
      results' <- quantize_one quantize_binary ggml_path output_dir
                               results quant;;
      quantize_loop quantize_binary ggml_path output_dir rest results'
  end.

Definition quantize_model (ggml_path output_dir whisper_cpp_dir : Path)
  : M Results :=
  let quantize_binary := quantize_binary_of whisper_cpp_dir in
  present <- path_exists quantize_binary;;
  if negb present then
    raise (Exn RuntimeError
             ("Quantize binary not found: " ++ PathLib.str quantize_binary))
  else
    quantize_loop quantize_binary ggml_path output_dir quantizations [].

(** ** main (lines 266-325) *)

(** The namespace [parser.parse_args()] returns. *)
Record Args :=
  { args_model_path : string;
    args_output_dir : string;
    args_skip_quantization : bool }.

Definition default_args : Args :=
  {| args_model_path := "./output/whisper-atc/final";
     args_output_dir := "./output/quantized";
     args_skip_quantization := false |}.

(** The summary loop of lines 310-311 *)
Fixpoint log_results (results : Results) : M unit :=
  match results with
  | [] => ret tt
  | (quant_type, info) :: rest =>
      logger_info ("  " ++ quant_type ++ ": " ++ str_rounded (size_mb info)
                   ++ " MB - " ++ path info);;
      log_results rest
  end.

Definition main (args : Args) : M unit :=
  let model_path := PathLib.of_string (args_model_path args) in
  let output_dir := PathLib.of_string (args_output_dir args) in
  mkdir output_dir;;
  present <- path_exists model_path;;
  if negb present then
    logger_error ("Model path not found: " ++ PathLib.str model_path);;
    logger_info "Please run train_atc_model.py first";;
    ret tt
  else
    provisioned <-
      try_except
        (d <- download_whisper_cpp;; ret (Some d))
        except_RuntimeError
        (fun e =>
           logger_error ("Failed to setup whisper.cpp: " ++ str_exn e);;
           ret None);;
    match provisioned with
    | None => ret tt
    | Some whisper_cpp_dir =>
        let ggml_path := output_dir // "whisper-atc.bin" in
        converted <-
          try_except
            (convert_hf_to_ggml model_path ggml_path whisper_cpp_dir;;
             ret true)
            except_RuntimeError
            (fun e =>
               logger_error ("Failed to convert model: " ++ str_exn e);;
               ret false);;
        if negb converted then ret tt
        else
          (if negb (args_skip_quantization args) then
             try_except
               (results <- quantize_model ggml_path output_dir
                                          whisper_cpp_dir;;
                logger_info (nl ++ "📊 Quantization Results:");;
                log_results results;;
                logger_info (nl ++ "💡 Recommendations:");;
                logger_info "  • q8_0: Best quality, use for production";;
                logger_info "  • q5_0: Good balance for development";;
                logger_info "  • q4_0: Smallest size, use if memory constrained")
               except_RuntimeError
               (fun e =>
                  logger_error ("Failed to quantize model: " ++ str_exn e);;
                  logger_info ("GGML model available at: "
                               ++ PathLib.str ggml_path))
           else ret tt);;
          logger_info (nl ++ "✅ Model conversion complete!");;
          logger_info ("📁 Output directory: " ++ PathLib.str output_dir);;
          logger_info
            "🔄 Next step: Copy quantized models to ../resources/models/atc-custom/"
    end.

End Script.

(* ================================================================== *)
(** * Vocabulary of the statements *)

(** Which configuration attribute feeds which key of [dims]
    (lines 148-157, read off the dictionary literal). *)
Definition dim_sources : list (string * string) :=
  [ ("n_mels", "num_mel_bins");
    ("n_audio_ctx", "max_source_positions");
    ("n_audio_state", "d_model");
    ("n_audio_head", "encoder_attention_heads");
    ("n_audio_layer", "encoder_layers");
    ("n_vocab", "vocab_size");
    ("n_text_ctx", "max_target_positions");
    ("n_text_state", "d_model");
    ("n_text_head", "decoder_attention_heads");
    ("n_text_layer", "decoder_layers") ].

Definition manifest_keys : list string := map fst dim_sources.

(** Every dimension field is present and its value passes [ok]. *)
Definition supplies (ok : Z -> bool) (c : Config) : bool :=
  forallb (fun ka => match getattr c (snd ka) with
                     | Some v => ok v
                     | None => false
                     end) dim_sources.

Definition supplies_all : Config -> bool := supplies (fun _ => true).
Definition supplies_positive : Config -> bool := supplies (fun v => 0 <? v).

(** Some dimension field is absent. *)
Definition lacks_dimension (c : Config) : Prop :=
  exists key attr, In (key, attr) dim_sources /\ getattr c attr = None.

Definition compatible_pt_of (output_path : Path) : Path :=
  PathLib.parent output_path // "whisper_compatible.pt".

Definition saving_logs (output_path : Path) : list (Level * string) :=
  [ (INFO, "Loading Hugging Face model...");
    (INFO, "Creating compatible checkpoint format...");
    (INFO, "Saving compatible checkpoint to "
           ++ PathLib.str (compatible_pt_of output_path) ++ "...") ].


(** The key of the canonical converted binary in [main] (line 296) and the
    names a run of the pipeline gives to what it writes in the output
    directory. *)
Definition canonical_name : string := "whisper-atc.bin".

Definition quantized_names : list string :=
  map (fun quant => "whisper-atc-" ++ fst quant ++ ".bin") quantizations.

Definition is_TorchSave (ev : Event) : bool :=
  match ev with TorchSave _ _ => true | _ => false end.

Definition is_SubprocessRun (ev : Event) : bool :=
  match ev with SubprocessRun _ _ => true | _ => false end.


(** The records of a failed run of the conversion script. *)
Definition conversion_failure_logs (whisper_cpp_dir : Path)
           (result : CompletedProcess) : list (Level * string) :=
  [ (INFO, "Using conversion script: "
           ++ PathLib.str (convert_script_of whisper_cpp_dir));
    (INFO, "Converting compatible checkpoint...");
    (ERROR, "Conversion failed:");
    (ERROR, "stderr: " ++ stderr result);
    (ERROR, "stdout: " ++ stdout result);
    (ERROR, "Failed to convert model: Failed to convert model to GGML format") ].

(** The artifact recorded for a level whose output has [size] bytes. *)
Definition artifact_of (output_dir : Path) (quant_type : string) (size : Z)
  : Artifact :=
  {| path := PathLib.str (quantized_path output_dir quant_type);
     size_mb := round1 (inject_Z size / inject_Z (1024 * 1024)) |}.

(* ================================================================== *)
(** * A concrete installation, for examples *)

Module Example.

(** The dimensions of a small Whisper checkpoint. *)
Definition whisper_config : Config :=
  [ ("num_mel_bins", 80); ("max_source_positions", 1500); ("d_model", 384);
    ("encoder_attention_heads", 6); ("encoder_layers", 4);
    ("vocab_size", 51864); ("max_target_positions", 448);
    ("decoder_attention_heads", 6); ("decoder_layers", 4) ].

(** The same with a zero mel-bin count. *)
Definition zero_mels_config : Config :=
  ("num_mel_bins", 0) :: tl whisper_config.

(** The same without [vocab_size]. *)
Definition no_vocab_config : Config :=
  filter (fun kv => negb (String.eqb (fst kv) "vocab_size")) whisper_config.

Definition model_of (c : Config) : Model :=
  {| config := c; state_dict := [("encoder.conv1.weight", 1)] |}.

Definition quantized_dir : Path := ["output"; "quantized"].

Definition exit_with (code : Z) (out err : string) : CompletedProcess :=
  {| returncode := code; stdout := out; stderr := err |}.

(** External tools: [git] and [make] fail; the conversion script exits with
    [convert_rc], writing [ggml-model-f32.bin] when that is zero; the
    quantizer fails on the level [failing] and writes its output on the
    others. *)
Definition tools (convert_rc : Z) (failing : string)
           (argv : list string) (dir : option Path) (fs : FS)
  : exn + (CompletedProcess * FS) :=
  match argv with
  | [_; _; _; _; _; "use-f32"] =>
      if convert_rc =? 0 then
        inr (exit_with 0 "done" "",
             Fs.set fs (quantized_dir // "ggml-model-f32.bin")
                    (File (Binary 967000000)))
      else inr (exit_with convert_rc "loading checkpoint" "Traceback", fs)
  | [_; _; out; level] =>
      if String.eqb level failing then inr (exit_with 1 "" "", fs)
      else inr (exit_with 0 "" "",
                Fs.set fs (PathLib.of_string out) (File (Binary 264000000)))
  | _ => inr (exit_with 128 "" "", fs)
  end.

Definition env_with (c : Config) (convert_rc : Z) (failing : string) : Env :=
  {| cwd := [];
     sys_executable := "/usr/bin/python3";
     subprocess_run := tools convert_rc failing;
     import_module := fun _ => None;
     from_pretrained := fun _ _ => inr (model_of c);
     urlretrieve := fun _ => None;
     tokenizer_get_vocab := fun _ => None;
     size_of_content := fun _ => 0;
     size_of_dir := 4096 |}.

(** The toolchain is installed and built, the trained model is in place. *)
Definition installed : FS :=
  [ (["output"], Dir);
    (["output"; "whisper-atc"], Dir);
    (["output"; "whisper-atc"; "final"], Dir);
    (["whisper.cpp"], Dir);
    (["whisper.cpp"; "models"], Dir);
    (["whisper.cpp"; "models"; "convert-pt-to-ggml.py"], File (Binary 12000));
    (["whisper.cpp"; "build"], Dir);
    (["whisper.cpp"; "build"; "bin"], Dir);
    (["whisper.cpp"; "build"; "bin"; "quantize"], File (Binary 900000)) ].

Definition world_with (files : FS) : World :=
  {| fs := files; log := []; trace := [] |}.

Definition model_path : Path := ["output"; "whisper-atc"; "final"].
Definition ggml_path : Path := quantized_dir // canonical_name.
Definition whisper_cpp_dir : Path := ["whisper.cpp"].

End Example.

(** What [results] says about a level whose subprocess ended as [result],
    leaving the filesystem [after]: an artifact with the output path and the
    measured size when it exited with zero, nothing otherwise. *)
Definition level_outcome (env : Env) (output_dir : Path) (results : Results)
           (quant_type : string) (result : CompletedProcess) (after : FS)
  : Prop :=
  if returncode result =? 0 then
    exists size,
      st_size env after (quantized_path output_dir quant_type) = inr size
      /\ dict_get results quant_type
         = Some (artifact_of output_dir quant_type size)
  else dict_get results quant_type = None.

Definition failed (result : CompletedProcess) : bool :=
  negb (returncode result =? 0).

(** The call of the quantizer for one level. *)
Definition quantize_call (ggml_path output_dir whisper_cpp_dir : Path)
           (quant_type : string) : list string :=
  quantize_argv (quantize_binary_of whisper_cpp_dir) ggml_path
                (quantized_path output_dir quant_type) quant_type.

(** A world with further log records. *)
Definition with_log (w : World) (records : list (Level * string)) : World :=
  {| fs := fs w; log := (log w ++ records)%list; trace := trace w |}.

(** The records the scan of the output directory writes (lines 200-205). *)
Definition scan_logs (output_dir : Path) (entries : list Path)
  : list (Level * string) :=
  (INFO, "Conversion completed. Output directory: " ++ PathLib.str output_dir)
  :: (INFO, "Generated files:")
  :: map (fun file => (INFO, "  - " ++ PathLib.str file))
         (filter is_ggml_file entries).

(** The marker and the extensions of line 204, as a relation. *)
Definition has_marker (name : string) : Prop :=
  exists before after, name = before ++ "ggml" ++ after.

Definition has_binary_extension (file : Path) : Prop :=
  PathLib.suffix file = ".bin" \/ PathLib.suffix file = ".ggml".

(** The names of what the pipeline itself puts in the output directory. *)
Definition pipeline_names : list string := canonical_name :: quantized_names.

(** Between two worlds no file appeared or changed at the path [q] -- a
    file found there afterwards was there before, with the same content --
    and [torch.save] was not called. *)
Definition untouched (q : Path) (w w' : World) : Prop :=
  (forall c, Fs.lookup (fs w') q = Some (File c) ->
             Fs.lookup (fs w) q = Some (File c))
  /\ filter is_TorchSave (trace w') = filter is_TorchSave (trace w).

(** A piece of the script that, however it ends, leaves [q] untouched. *)
Definition preserves {A} (q : Path) (m : M A) : Prop :=
  forall w, untouched q w (world_of (m w)).

(** The first record [convert_hf_to_ggml] logs. *)
Definition converting_log (model_path : Path) : list (Level * string) :=
  [ (INFO, "🔄 Converting " ++ PathLib.str model_path ++ " to GGML format...") ].

(** The record its [except] clause logs for the exception [e]. *)
Definition convert_error_log (e : exn) : list (Level * string) :=
  [ (ERROR, "Failed to convert model: " ++ str_exn e) ].

(* ================================================================== *)
(** * convert_safetensors_to_pytorch (lines 41-68) *)

(** The two calls into transformers this function makes. *)
Record SafetensorsEnv :=
  { (** [WhisperForConditionalGeneration.from_pretrained(model_path,
        use_safetensors=True)] *)
    load_safetensors : Path -> FS -> exn + Model;
    (** [model.save_pretrained(model_path, safe_serialization=False)]: it
        raises or leaves a filesystem. *)
    save_pretrained : Model -> Path -> FS -> exn + FS }.

Definition safetensors_failed : exn :=
  Exn RuntimeError "SafeTensors to PyTorch conversion failed".

(** The body of the [try] (lines 51-64) *)
Definition convert_safetensors_body
           (env : Env) (st : SafetensorsEnv) (model_path : Path) : M Path :=
  let pytorch_model_path := model_path // "pytorch_model.bin" in
  import env "torch";;
  import env "transformers";;
  emit (FromPretrained model_path);;
  model <- fs_read (load_safetensors st model_path);;
  fs_do (save_pretrained st model model_path);;
  logger_info ("✅ Converted to pytorch format: "
               ++ PathLib.str pytorch_model_path);;
  ret pytorch_model_path.

Definition convert_safetensors_to_pytorch
           (env : Env) (st : SafetensorsEnv) (model_path : Path) : M Path :=
  let pytorch_model_path := model_path // "pytorch_model.bin" in
  present <- path_exists pytorch_model_path;;
  if present then
    logger_info "✅ pytorch_model.bin already exists";;
    ret pytorch_model_path
  else
    logger_info "🔄 Converting safetensors to pytorch format...";;
    try_except
      (convert_safetensors_body env st model_path)
      except_Exception
      (fun e =>
         logger_error ("Failed to convert safetensors to pytorch: "
                       ++ str_exn e);;
         raise safetensors_failed).

(* ================================================================== *)
(** * Vocabulary of the further statements *)

(** [Path("./whisper.cpp")] *)
Definition whisper_cpp : Path := PathLib.of_string "./whisper.cpp".

Definition git_clone : list string :=
  ["git"; "clone"; "https://github.com/ggerganov/whisper.cpp.git"].

(** The asset files of [setup_whisper_assets]. *)
Definition assets_dir_of (whisper_cpp_dir : Path) : Path :=
  whisper_cpp_dir // "whisper" // "assets".
Definition gpt2_dir_of (whisper_cpp_dir : Path) : Path :=
  assets_dir_of whisper_cpp_dir // "gpt2".
Definition mel_filters_file_of (whisper_cpp_dir : Path) : Path :=
  assets_dir_of whisper_cpp_dir // "mel_filters.npz".
Definition vocab_file_of (whisper_cpp_dir : Path) : Path :=
  gpt2_dir_of whisper_cpp_dir // "vocab.json".


(** The world in which [main] makes its existence check. *)
Definition after_mkdir (w : World) (fs1 : FS) : World :=
  {| fs := fs1; log := log w; trace := trace w |}.

(** The three records with which [main] ends (lines 323-325). *)
Definition completion_logs (output_dir : Path) : list (Level * string) :=
  [ (INFO, nl ++ "✅ Model conversion complete!");
    (INFO, "📁 Output directory: " ++ PathLib.str output_dir);
    (INFO, "🔄 Next step: Copy quantized models to ../resources/models/atc-custom/") ].

(** The levels, with how each subprocess ended, that made it into
    [results]. *)
Definition succeeded_levels (runs : list (string * CompletedProcess))
  : list string :=
  map fst (filter (fun run => negb (failed (snd run))) runs).

(* ================================================================== *)
(** * Further concrete installations *)

Module Scenario.

(** [git clone] succeeds and leaves [./whisper.cpp]; every other command
    exits with status 2 and changes nothing. *)
Definition clone_only (argv : list string) (dir : option Path) (fs : FS)
  : exn + (CompletedProcess * FS) :=
  match argv with
  | "git" :: _ => inr (Example.exit_with 0 "" "", Fs.set fs whisper_cpp Dir)
  | _ => inr (Example.exit_with 2 "" "make: *** Error 2", fs)
  end.

(** No command can be started ([git] is not installed). *)
Definition no_commands (argv : list string) (dir : option Path) (fs : FS)
  : exn + (CompletedProcess * FS) :=
  inl (Exn FileNotFoundError "[Errno 2] No such file or directory: 'git'").

(** The conversion script works as in [Example.tools]; the quantizer exits
    with [quantize_rc] on every level and writes nothing. *)
Definition silent_quantizer (quantize_rc : Z)
           (argv : list string) (dir : option Path) (fs : FS)
  : exn + (CompletedProcess * FS) :=
  match argv with
  | [_; _; _; _] => inr (Example.exit_with quantize_rc "" "", fs)
  | _ => Example.tools 0 "" argv dir fs
  end.

(** A quantizer that fails on q8_0, writes its output on q5_0, and on
    q4_0 exits with zero without writing anything. *)
Definition forgetful_quantizer
           (argv : list string) (dir : option Path) (fs : FS)
  : exn + (CompletedProcess * FS) :=
  match argv with
  | [_; _; out; level] =>
      if String.eqb level "q8_0" then inr (Example.exit_with 1 "" "", fs)
      else if String.eqb level "q5_0" then
        inr (Example.exit_with 0 "" "",
             Fs.set fs (PathLib.of_string out) (File (Binary 330000000)))
      else inr (Example.exit_with 0 "" "", fs)
  | _ => inr (Example.exit_with 0 "" "", fs)
  end.

(** Every command exits with zero and changes nothing. *)
Definition idle (argv : list string) (dir : option Path) (fs : FS)
  : exn + (CompletedProcess * FS) :=
  inr (Example.exit_with 0 "" "", fs).

Definition env_of
           (tools : list string -> option Path -> FS
                    -> exn + (CompletedProcess * FS))
           (online : bool) : Env :=
  {| cwd := [];
     sys_executable := "/usr/bin/python3";
     subprocess_run := tools;
     import_module := fun _ => None;
     from_pretrained := fun _ _ => inr (Example.model_of Example.whisper_config);
     urlretrieve :=
       fun _ => if online then None
                else Some (Exn OtherException "<urlopen error timed out>");
     tokenizer_get_vocab :=
       fun _ => if online then None
                else Some (Exn OSError "Can't load tokenizer");
     size_of_content := fun _ => 0;
     size_of_dir := 4096 |}.

(** The trained model is in place, nothing else. *)
Definition trained_only : FS :=
  [ (["output"], Dir);
    (["output"; "whisper-atc"], Dir);
    (["output"; "whisper-atc"; "final"], Dir) ].

(** The installation of [Example.installed] without the quantizer. *)
Definition without_quantizer : FS :=
  Fs.remove Example.installed (quantize_binary_of Example.whisper_cpp_dir).

Definition skip_args : Args :=
  {| args_model_path := args_model_path default_args;
     args_output_dir := args_output_dir default_args;
     args_skip_quantization := true |}.

(** Safetensors conversion whose save step writes [pytorch_model.bin]. *)
Definition safetensors_ok : SafetensorsEnv :=
  {| load_safetensors := fun _ _ => inr (Example.model_of Example.whisper_config);
     save_pretrained :=
       fun _ model_path fs =>
         inr (Fs.set fs (model_path // "pytorch_model.bin")
                     (File (Binary 967000000))) |}.

(** Safetensors conversion whose load step fails. *)
Definition safetensors_broken : SafetensorsEnv :=
  {| load_safetensors :=
       fun _ _ => inl (Exn OSError "no file named model.safetensors");
     save_pretrained := fun _ _ fs => inr fs |}.

End Scenario.

(** A piece of the script after which, when it returns, [p] exists. *)
Definition creates {A} (p : Path) (m : M A) : Prop :=
  forall w a w', m w = Ok a w' -> Fs.exists_ (fs w') p = true.

(** A piece of the script that, however it ends, does not make an existing
    [p] disappear. *)
Definition keeps {A} (p : Path) (m : M A) : Prop :=
  forall w, Fs.exists_ (fs w) p = true ->
            Fs.exists_ (fs (world_of (m w))) p = true.
(* ================================================================== *)
(** * The model on concrete inputs *)

Example of_string_default_output :
  PathLib.of_string "./output/quantized" = ["output"; "quantized"].
Proof. reflexivity. Qed.

Example of_string_absolute :
  PathLib.of_string "/srv//models/./atc/" = ["/"; "srv"; "models"; "atc"].
Proof. reflexivity. Qed.

Example of_string_roots :
  map PathLib.of_string ["//srv/models"; "///srv/models"; "models/../atc"]
  = [ ["//"; "srv"; "models"]; ["/"; "srv"; "models"]; ["models"; ".."; "atc"] ]
  /\ map (fun s => PathLib.str (PathLib.of_string s))
         ["//srv/models"; "///srv/models"; "./models/"; ""]
     = ["//srv/models"; "/srv/models"; "models"; "."].
Proof. split; reflexivity. Qed.

Example suffix_examples :
  map (fun name => PathLib.suffix [name])
      ["ggml-model-f32.bin"; ".bin"; "model."; "a.tar.ggml"; "ggml"]
  = [".bin"; ""; ""; ".ggml"; ""].
Proof. reflexivity. Qed.

Example is_ggml_file_examples :
  map (fun name => is_ggml_file (["out"] // name))
      ["ggml-model-f32.bin"; "model.ggml"; "whisper-atc.bin"; "ggml";
       "ggml-notes.txt"; "whisper_compatible.pt"]
  = [true; true; false; false; false; false].
Proof. reflexivity. Qed.

(** 471859 bytes are 0.45 MiB minus a little, 262144 bytes are exactly a
    quarter: the tie goes to the even tenth. *)
Example round1_examples :
  map (fun size => round1 (inject_Z size / inject_Z (1024 * 1024)))
      [471859; 262144; 786432; 1048576]
  = [4 # 10; 2 # 10; 8 # 10; 10 # 10]%Q.
Proof. reflexivity. Qed.

Example format_1f_examples :
  map (fun size => format_1f (inject_Z size / inject_Z (1024 * 1024)))
      [471859; 264000000; 0]
  = ["0.4"; "251.8"; "0.0"].
Proof. reflexivity. Qed.

(** A whole run of [main] on the example installation: the converted file
    is found and renamed, the intermediate checkpoint is removed, the level
    q5_0 fails and the two others are produced. *)
Example main_run :
  let run := main (Example.env_with Example.whisper_config 0 "q5_0")
                  default_args (Example.world_with Example.installed) in
  (exists w', run = Ok tt w')
  /\ map (Fs.exists_ (fs (world_of run)))
         [ Example.quantized_dir // "whisper-atc.bin";
           Example.quantized_dir // "ggml-model-f32.bin";
           Example.quantized_dir // "whisper_compatible.pt";
           Example.quantized_dir // "whisper-atc-q8_0.bin";
           Example.quantized_dir // "whisper-atc-q5_0.bin";
           Example.quantized_dir // "whisper-atc-q4_0.bin" ]
     = [true; false; false; true; false; true].
Proof. vm_compute. split; [eexists|]; reflexivity. Qed.

(* ================================================================== *)
(** * Facts about strings and paths *)

Lemma startswith_spec (p s : string) :
  Str.startswith p s = true <-> exists t, s = p ++ t.
Proof.
  revert s; induction p as [|a p IH]; intros s; simpl.
  - split; [intros _; now exists s | reflexivity].
  - destruct s as [|b s].
    + split; [discriminate | intros [t Ht]; discriminate].
    + rewrite andb_true_iff, Ascii.eqb_eq, IH. split.
      * intros [-> [t ->]]. now exists t.
      * intros [t Ht]. injection Ht as -> ->. split; [reflexivity | now exists t].
Qed.

(** [Str.contains] decides the substring relation. *)
Lemma contains_spec (needle hay : string) :
  Str.contains needle hay = true <-> exists a b, hay = a ++ needle ++ b.
Proof.
  induction hay as [|c hay IH].
  - simpl. rewrite orb_false_r, startswith_spec. split.
    + intros [t Ht]. now exists "", t.
    + intros [a [b H]]. destruct a; simpl in H.
      * now exists b.
      * discriminate.
  - cbn [Str.contains]. rewrite orb_true_iff, startswith_spec, IH. split.
    + intros [[t Ht] | [a [b H]]].
      * now exists "", t.
      * exists (String c a), b. simpl. now rewrite H.
    + intros [a [b H]]. destruct a as [|c' a]; simpl in H.
      * left. now exists b.
      * right. injection H as _ H. now exists a, b.
Qed.

Lemma path_eqb_eq (p q : Path) : PathLib.eqb p q = true <-> p = q.
Proof.
  revert q; induction p as [|a p IH]; intros [|b q]; simpl;
    try (split; [discriminate | congruence]).
  - split; reflexivity.
  - rewrite andb_true_iff, String.eqb_eq, IH. split.
    + now intros [-> ->].
    + intros H; injection H; auto.
Qed.

Lemma path_eqb_refl (p : Path) : PathLib.eqb p p = true.
Proof. now apply path_eqb_eq. Qed.

Lemma path_eqb_neq (p q : Path) : PathLib.eqb p q = false <-> p <> q.
Proof.
  rewrite <- path_eqb_eq. destruct (PathLib.eqb p q); split; congruence.
Qed.

Lemma is_prefix_spec (p q : Path) :
  PathLib.is_prefix p q = true <-> exists r, q = (p ++ r)%list.
Proof.
  revert q; induction p as [|a p IH]; intros q; simpl.
  - split; [intros _; now exists q | reflexivity].
  - destruct q as [|b q].
    + split; [discriminate | intros [r Hr]; discriminate].
    + rewrite andb_true_iff, String.eqb_eq, IH. split.
      * intros [-> [r ->]]. now exists r.
      * intros [r Hr]. injection Hr as -> ->. split; [reflexivity | now exists r].
Qed.

Lemma div_not_nil (p : Path) (c : string) : p // c <> [].
Proof. unfold PathLib.div. now destruct p. Qed.

Lemma parent_div (p : Path) (c : string) : PathLib.parent (p // c) = p.
Proof. apply removelast_last. Qed.

Lemma name_div (p : Path) (c : string) : PathLib.name (p // c) = c.
Proof. apply last_last. Qed.

Lemma div_inj (p q : Path) (c d : string) : p // c = q // d -> p = q /\ c = d.
Proof. apply app_inj_tail. Qed.

(* ================================================================== *)
(** * Facts about the filesystem *)

Lemma find_set_same (fs : FS) (p : Path) (n : node) :
  Fs.find (Fs.set fs p n) p = Some n.
Proof.
  induction fs as [|[q m] fs IH]; simpl.
  - now rewrite path_eqb_refl.
  - destruct (PathLib.eqb q p) eqn:E; simpl; now rewrite E.
Qed.

Lemma find_set_other (fs : FS) (p q : Path) (n : node) :
  q <> p -> Fs.find (Fs.set fs p n) q = Fs.find fs q.
Proof.
  intros Hne. induction fs as [|[r m] fs IH]; simpl.
  - destruct (PathLib.eqb p q) eqn:E; [|reflexivity].
    apply path_eqb_eq in E. congruence.
  - destruct (PathLib.eqb r p) eqn:E; simpl.
    + apply path_eqb_eq in E. subst r.
      destruct (PathLib.eqb p q) eqn:E'; [|reflexivity].
      apply path_eqb_eq in E'. congruence.
    + now rewrite IH.
Qed.

Lemma lookup_set_same (fs : FS) (p : Path) (n : node) :
  p <> [] -> Fs.lookup (Fs.set fs p n) p = Some n.
Proof. destruct p; [congruence|]. intros _. apply find_set_same. Qed.

Lemma lookup_set_other (fs : FS) (p q : Path) (n : node) :
  q <> p -> Fs.lookup (Fs.set fs p n) q = Fs.lookup fs q.
Proof. destruct q; [reflexivity|]. apply find_set_other. Qed.

Lemma find_remove_same (fs : FS) (p : Path) : Fs.find (Fs.remove fs p) p = None.
Proof.
  induction fs as [|[q m] fs IH]; simpl; [reflexivity|].
  destruct (PathLib.eqb q p) eqn:E; simpl; [assumption|]. now rewrite E.
Qed.

Lemma find_remove_other (fs : FS) (p q : Path) :
  q <> p -> Fs.find (Fs.remove fs p) q = Fs.find fs q.
Proof.
  intros Hne. induction fs as [|[r m] fs IH]; simpl; [reflexivity|].
  destruct (PathLib.eqb r p) eqn:E; simpl.
  - apply path_eqb_eq in E. subst r.
    destruct (PathLib.eqb p q) eqn:E'; [|assumption].
    apply path_eqb_eq in E'. congruence.
  - now rewrite IH.
Qed.

(** A successful write leaves the content at the path. *)
Lemma write_lookup (fs fs' : FS) (p : Path) (c : content) :
  Fs.write fs p c = inr fs' -> Fs.lookup fs' p = Some (File c).
Proof.
  unfold Fs.write. destruct p as [|a p]; [discriminate|].
  destruct (Fs.lookup fs (PathLib.parent (a :: p))) as [[|?]|]; try discriminate.
  destruct (Fs.lookup fs (a :: p)) as [[|?]|]; try discriminate;
    intros H; injection H as <-; now apply lookup_set_same.
Qed.

Lemma write_frame (fs fs' : FS) (p q : Path) (c : content) :
  Fs.write fs p c = inr fs' -> q <> p -> Fs.lookup fs' q = Fs.lookup fs q.
Proof.
  unfold Fs.write. destruct p as [|a p]; [discriminate|].
  destruct (Fs.lookup fs (PathLib.parent (a :: p))) as [[|?]|]; try discriminate.
  destruct (Fs.lookup fs (a :: p)) as [[|?]|]; try discriminate;
    intros H Hne; injection H as <-; now apply lookup_set_other.
Qed.

(** ** mkdir(parents=True, exist_ok=True) *)

Lemma mkdir_from_frame (target : Path) (rest : list string) :
  forall (pre : Path) (fs fs' : FS) (q : Path),
    Fs.mkdir_from target pre rest fs = inr fs' ->
    PathLib.is_prefix q (pre ++ rest)%list = false ->
    Fs.lookup fs' q = Fs.lookup fs q.
Proof.
  induction rest as [|c rest IH]; intros pre fs fs' q Hmk Hq; simpl in Hmk.
  - now injection Hmk as <-.
  - assert (Hpre : ((pre // c) ++ rest = pre ++ c :: rest)%list)
      by (unfold PathLib.div; now rewrite <- app_assoc).
    destruct (Fs.lookup fs (pre // c)) as [[|?]|] eqn:E; try discriminate.
    + apply (IH _ _ _ q Hmk). now rewrite Hpre.
    + rewrite (IH _ _ _ q Hmk) by now rewrite Hpre.
      apply lookup_set_other. intros ->.
      assert (PathLib.is_prefix (pre // c) (pre ++ c :: rest)%list = true)
        by (apply is_prefix_spec; exists rest; now rewrite Hpre).
      congruence.
Qed.

(** What existed before [mkdir] is still there afterwards, unchanged. *)
Lemma mkdir_from_keeps (target : Path) (rest : list string) :
  forall (pre : Path) (fs fs' : FS) (q : Path) (n : node),
    Fs.mkdir_from target pre rest fs = inr fs' ->
    Fs.lookup fs q = Some n -> Fs.lookup fs' q = Some n.
Proof.
  induction rest as [|c rest IH]; intros pre fs fs' q n Hmk Hq; simpl in Hmk.
  - now injection Hmk as <-.
  - destruct (Fs.lookup fs (pre // c)) as [[|?]|] eqn:E; try discriminate.
    + now apply (IH _ _ _ q n Hmk).
    + apply (IH _ _ _ q n Hmk). rewrite lookup_set_other; [assumption|].
      intros ->. congruence.
Qed.

(** After a successful [mkdir] every path from [pre] down to the target is
    a directory. *)
Lemma mkdir_from_dirs (target : Path) (rest : list string) :
  forall (pre : Path) (fs fs' : FS),
    Fs.lookup fs pre = Some Dir ->
    Fs.mkdir_from target pre rest fs = inr fs' ->
    forall r1 r2, rest = (r1 ++ r2)%list ->
                  Fs.lookup fs' (pre ++ r1)%list = Some Dir.
Proof.
  induction rest as [|c rest IH]; intros pre fs fs' Hpre Hmk r1 r2 Hr.
  - simpl in Hmk. injection Hmk as <-.
    symmetry in Hr. apply app_eq_nil in Hr as [-> _]. now rewrite app_nil_r.
  - destruct r1 as [|c' r1].
    + rewrite app_nil_r. now apply (mkdir_from_keeps _ _ _ _ _ _ _ Hmk).
    + simpl in Hr. injection Hr as <- Hr. simpl in Hmk.
      replace (pre ++ c :: r1)%list with ((pre // c) ++ r1)%list
        by (unfold PathLib.div; now rewrite <- app_assoc).
      destruct (Fs.lookup fs (pre // c)) as [[|?]|] eqn:E; try discriminate.
      * now apply (IH _ _ _ E Hmk r1 r2).
      * apply (IH _ _ _ (lookup_set_same fs _ Dir (div_not_nil pre c)) Hmk r1 r2 Hr).
Qed.

(** [mkdir] adds directories only: a file found afterwards was there
    before. *)
Lemma mkdir_from_files (target : Path) (rest : list string) :
  forall (pre : Path) (fs fs' : FS) (q : Path) (c : content),
    Fs.mkdir_from target pre rest fs = inr fs' ->
    Fs.lookup fs' q = Some (File c) -> Fs.lookup fs q = Some (File c).
Proof.
  induction rest as [|x rest IH]; intros pre fs fs' q c Hmk Hq; simpl in Hmk.
  - now injection Hmk as <-.
  - destruct (Fs.lookup fs (pre // x)) as [[|?]|] eqn:E; try discriminate.
    + now apply (IH _ _ _ q c Hmk).
    + apply (IH _ _ _ q c Hmk) in Hq.
      destruct (PathLib.eqb q (pre // x)) eqn:Eq.
      * apply path_eqb_eq in Eq. subst q.
        rewrite lookup_set_same in Hq by apply div_not_nil. discriminate.
      * apply path_eqb_neq in Eq. now rewrite lookup_set_other in Hq.
Qed.

Lemma mkdir_frame (fs fs' : FS) (p q : Path) :
  Fs.mkdir fs p = inr fs' ->
  PathLib.is_prefix q p = false ->
  Fs.lookup fs' q = Fs.lookup fs q.
Proof. intros H. now apply (mkdir_from_frame p p [] fs fs' q). Qed.

Lemma mkdir_keeps (fs fs' : FS) (p q : Path) (n : node) :
  Fs.mkdir fs p = inr fs' -> Fs.lookup fs q = Some n -> Fs.lookup fs' q = Some n.
Proof. apply mkdir_from_keeps. Qed.

Lemma mkdir_ancestors (fs fs' : FS) (p q : Path) :
  Fs.mkdir fs p = inr fs' ->
  PathLib.is_prefix q p = true -> Fs.is_dir fs' q = true.
Proof.
  intros Hmk Hq. apply is_prefix_spec in Hq as [r Hr]. unfold Fs.is_dir.
  now rewrite (mkdir_from_dirs p p [] fs fs' eq_refl Hmk q r Hr : Fs.lookup fs' q = _).
Qed.

Lemma is_prefix_refl (p : Path) : PathLib.is_prefix p p = true.
Proof. apply is_prefix_spec. exists []. now rewrite app_nil_r. Qed.




(* ================================================================== *)
(** * The dimension manifest *)

Lemma supplies_weaken (ok : Z -> bool) (c : Config) :
  supplies ok c = true -> supplies_all c = true.
Proof.
  unfold supplies_all, supplies. rewrite !forallb_forall.
  intros H x Hx. specialize (H x Hx). now destruct (getattr c (snd x)).
Qed.

Ltac case_getattrs c :=
  repeat match goal with
         | |- context [getattr c ?a] =>
             let E := fresh "E" in destruct (getattr c a) eqn:E
         end.

(** With every field present the literal is built, key by key, whatever
    the values are. *)
Lemma build_dims_present (c : Config) :
  supplies_all c = true ->
  exists d, build_dims c = inr d
            /\ dict_keys d = manifest_keys
            /\ forall key attr, In (key, attr) dim_sources ->
                                dict_get d key = getattr c attr.
Proof.
  unfold supplies_all, supplies, build_dims, config_attr, dim_sources.
  cbn [forallb snd]. case_getattrs c; cbn [andb]; try discriminate.
  intros _. eexists; split; [reflexivity|]. split; [reflexivity|].
  intros key attr Hin. cbn [In] in Hin.
  repeat (destruct Hin as [Hin|Hin];
          [injection Hin as <- <-; cbn; congruence|]).
  contradiction.
Qed.

(** With a field absent the literal raises [AttributeError]. *)
Lemma build_dims_lacking (c : Config) :
  lacks_dimension c ->
  exists msg, build_dims c = inl (Exn AttributeError msg).
Proof.
  intros [key [attr [Hin Hnone]]]. unfold build_dims, config_attr.
  case_getattrs c; try (eexists; reflexivity).
  exfalso. unfold dim_sources in Hin. cbn [In] in Hin.
  repeat (destruct Hin as [Hin|Hin]; [injection Hin as <- <-; congruence|]).
  contradiction.
Qed.

(** Both state widths of a built manifest are the one [d_model]. *)
Lemma build_dims_state (c : Config) (d : Dims) :
  build_dims c = inr d ->
  exists v, getattr c "d_model" = Some v
            /\ dict_get d "n_audio_state" = Some v
            /\ dict_get d "n_text_state" = Some v.
Proof.
  unfold build_dims, config_attr.
  case_getattrs c; try discriminate.
  intros H. injection H as <-. eexists. split; [reflexivity|]. now split.
Qed.

(* ================================================================== *)
(** * Saving the compatible checkpoint (lines 141-172) *)

Ltac unfold_monad :=
  repeat progress
    (unfold bind, ret, raise, try_except, logger_info, logger_error, logger,
       emit, fs_do, fs_read, path_exists, lift_exn, mkdir, write_file,
       torch_save, url_retrieve, import, run;
     cbn [fs log trace world_of]).

(** What a run of the block that returns has done. *)
Lemma save_compatible_checkpoint_ok env model_path output_path w r w' :
  save_compatible_checkpoint env model_path output_path w = Ok r w' ->
  exists m d fs1,
    from_pretrained env model_path (fs w) = inr m
    /\ build_dims (config m) = inr d
    /\ Fs.mkdir (fs w) (PathLib.parent output_path) = inr fs1
    /\ Fs.write fs1 (compatible_pt_of output_path)
                (Pickle {| dims := d; model_state_dict := state_dict m |})
       = inr (fs w')
    /\ r = (compatible_pt_of output_path, PathLib.parent output_path)
    /\ log w' = (log w ++ saving_logs output_path)%list
    /\ trace w' =
       (trace w ++
          [ FromPretrained model_path;
            TorchSave {| dims := d; model_state_dict := state_dict m |}
                      (compatible_pt_of output_path) ])%list.
Proof.
  unfold save_compatible_checkpoint. unfold_monad.
  destruct (from_pretrained env model_path (fs w)) as [e|m] eqn:Hm;
    [discriminate|].
  destruct (build_dims (config m)) as [e|d] eqn:Hd; [discriminate|].
  unfold_monad.
  destruct (Fs.mkdir (fs w) (PathLib.parent output_path)) as [e|fs1] eqn:Hmk;
    [discriminate|].
  unfold_monad. fold (compatible_pt_of output_path).
  match goal with
  | |- context [Fs.write fs1 ?p ?c] =>
      destruct (Fs.write fs1 p c) as [e|fs2] eqn:Hw; [discriminate|]
  end.
  intros H. injection H as <- <-. cbn [fs log trace].
  exists m, d, fs1. repeat split; try assumption; unfold saving_logs;
    now rewrite <- !app_assoc.
Qed.

(** ... and conversely: when the model loads with every field present and
    the two filesystem steps succeed, the block returns. *)
Lemma save_compatible_checkpoint_runs env model_path output_path w m d fs1 fs2 :
  from_pretrained env model_path (fs w) = inr m ->
  build_dims (config m) = inr d ->
  Fs.mkdir (fs w) (PathLib.parent output_path) = inr fs1 ->
  Fs.write fs1 (compatible_pt_of output_path)
           (Pickle {| dims := d; model_state_dict := state_dict m |})
  = inr fs2 ->
  save_compatible_checkpoint env model_path output_path w =
    Ok (compatible_pt_of output_path, PathLib.parent output_path)
       {| fs := fs2;
          log := (log w ++ saving_logs output_path)%list;
          trace :=
            (trace w ++
               [ FromPretrained model_path;
                 TorchSave {| dims := d; model_state_dict := state_dict m |}
                           (compatible_pt_of output_path) ])%list |}.
Proof.
  intros Hm Hd Hmk Hw.
  unfold save_compatible_checkpoint. unfold_monad.
  rewrite Hm, Hd. unfold_monad. rewrite Hmk. unfold_monad.
  fold (compatible_pt_of output_path). rewrite Hw.
  unfold saving_logs. now rewrite <- !app_assoc.
Qed.

(* ================================================================== *)
(** * Claims about the dimension manifest *)

(** C5.  When the loaded model's configuration supplies every dimension
    field with a positive value, lines 141-172 build a manifest whose keys
    are exactly [n_mels], [n_audio_ctx], [n_audio_state], [n_audio_head],
    [n_audio_layer], [n_vocab], [n_text_ctx], [n_text_state], [n_text_head],
    [n_text_layer], each holding the value of its source attribute; and when
    the output directory can be created and the file written, that manifest
    is what [torch.save] is given and what the saved checkpoint holds. *)
Theorem manifest_of_positive_config
        (env : Env) (model_path output_path : Path) (w : World) (m : Model) :
  from_pretrained env model_path (fs w) = inr m ->
  supplies_positive (config m) = true ->
  exists d : Dims,
    build_dims (config m) = inr d
    /\ dict_keys d =
       [ "n_mels"; "n_audio_ctx"; "n_audio_state"; "n_audio_head";
         "n_audio_layer"; "n_vocab"; "n_text_ctx"; "n_text_state";
         "n_text_head"; "n_text_layer" ]
    /\ (forall key attr, In (key, attr) dim_sources ->
                         dict_get d key = getattr (config m) attr)
    /\ forall fs1 fs2,
        let saved := {| dims := d; model_state_dict := state_dict m |} in
        Fs.mkdir (fs w) (PathLib.parent output_path) = inr fs1 ->
        Fs.write fs1 (compatible_pt_of output_path) (Pickle saved) = inr fs2 ->
        save_compatible_checkpoint env model_path output_path w =
          Ok (compatible_pt_of output_path, PathLib.parent output_path)
             {| fs := fs2;
                log := (log w ++ saving_logs output_path)%list;
                trace := (trace w ++
                            [ FromPretrained model_path;
                              TorchSave saved (compatible_pt_of output_path) ])%list |}
        /\ Fs.lookup fs2 (compatible_pt_of output_path) = Some (File (Pickle saved)).
Proof.
  intros Hm Hpos.
  destruct (build_dims_present (config m) (supplies_weaken _ _ Hpos))
    as [d [Hd [Hkeys Hvals]]].
  exists d. repeat split; try assumption.
  - now apply (save_compatible_checkpoint_runs env model_path output_path w m d fs1).
  - now apply (write_lookup fs1).
Qed.

Lemma manifest_of_positive_config_witness :
  exists d : Dims,
    build_dims Example.whisper_config = inr d
    /\ dict_get d "n_vocab" = Some 51864.
Proof.
  destruct (manifest_of_positive_config
              (Example.env_with Example.whisper_config 0 "")
              Example.model_path Example.ggml_path
              (Example.world_with Example.installed)
              (Example.model_of Example.whisper_config)
              eq_refl eq_refl) as [d [Hd [_ [Hv _]]]].
  exists d. split; [exact Hd|].
  exact (Hv "n_vocab" "vocab_size" (or_intror (or_intror (or_intror (or_intror
           (or_intror (or_introl eq_refl))))))).
Defined.

(** C9.  A checkpoint saved by lines 141-172 always carries
    [n_audio_state = n_text_state]: both keys hold the one attribute
    [d_model] of the configuration, so no configuration yields a manifest
    in which the two widths differ. *)
Theorem saved_manifest_state_widths_agree
        (env : Env) (model_path output_path : Path) (w w' : World)
        (r : Path * Path) :
  save_compatible_checkpoint env model_path output_path w = Ok r w' ->
  exists (saved : Checkpoint) (m : Model) (v : Z),
    Fs.lookup (fs w') (fst r) = Some (File (Pickle saved))
    /\ In (TorchSave saved (fst r)) (trace w')
    /\ build_dims (config m) = inr (dims saved)
    /\ from_pretrained env model_path (fs w) = inr m
    /\ getattr (config m) "d_model" = Some v
    /\ dict_get (dims saved) "n_audio_state" = Some v
    /\ dict_get (dims saved) "n_text_state" = Some v.
Proof.
  intros H.
  apply save_compatible_checkpoint_ok in H
    as (m & d & fs1 & Hm & Hd & Hmk & Hw & -> & Hlog & Htr).
  destruct (build_dims_state _ _ Hd) as [v [Hv [Ha Ht]]].
  exists {| dims := d; model_state_dict := state_dict m |}, m, v.
  cbn [fst dims]. repeat split; try assumption.
  - now apply (write_lookup fs1).
  - rewrite Htr. apply in_or_app. right. right. now left.
Qed.

Lemma saved_manifest_state_widths_agree_witness :
  exists (saved : Checkpoint) (v : Z),
    dict_get (dims saved) "n_audio_state" = Some v
    /\ dict_get (dims saved) "n_text_state" = Some v.
Proof.
  destruct (saved_manifest_state_widths_agree
              (Example.env_with Example.whisper_config 0 "")
              Example.model_path Example.ggml_path
              (Example.world_with Example.installed) _ _ eq_refl)
    as (saved & m & v & _ & _ & _ & _ & _ & Ha & Ht).
  now exists saved, v.
Defined.

(* ================================================================== *)
(** * Claims about quantize_model *)

Arguments artifact_of : simpl never.
Arguments quantized_path : simpl never.
Arguments quantize_argv : simpl never.
Arguments PathLib.str : simpl never.
Arguments format_1f : simpl never.

(** One pass of the loop, once the subprocess has run. *)
Lemma quantize_one_run (env : Env) (qb ggml_path output_dir : Path)
      (results : Results) (quant_type description : string) (w : World)
      (result : CompletedProcess) (after : FS) :
  subprocess_run env
    (quantize_argv qb ggml_path (quantized_path output_dir quant_type) quant_type)
    None (fs w) = inr (result, after) ->
  quantize_one env qb ggml_path output_dir results (quant_type, description) w
  = let output_path := quantized_path output_dir quant_type in
    let argv := quantize_argv qb ggml_path output_path quant_type in
    let started :=
      (log w ++ [(INFO, ("🔧 Quantizing to " ++ quant_type
                         ++ " (" ++ description ++ ")...")%string)])%list in
    if returncode result =? 0 then
      match st_size env after output_path with
      | inr size =>
          Ok (dict_set results quant_type (artifact_of output_dir quant_type size))
             {| fs := after;
                log := (started ++
                          [(INFO, ("✅ " ++ quant_type ++ ": "
                                   ++ format_1f (inject_Z size / inject_Z (1024 * 1024))
                                   ++ " MB")%string)])%list;
                trace := (trace w ++ [SubprocessRun argv None])%list |}
      | inl e =>
          Raise e {| fs := after; log := started;
                     trace := (trace w ++ [SubprocessRun argv None])%list |}
      end
    else
      Ok results
         {| fs := after;
            log := (started ++
                      [(ERROR, ("❌ Failed to quantize to " ++ quant_type)%string)])%list;
            trace := (trace w ++ [SubprocessRun argv None])%list |}.
Proof.
  intros Hrun. unfold quantize_one. unfold_monad.
  rewrite Hrun. unfold_monad. cbv zeta.
  destruct (returncode result =? 0); unfold_monad; [|reflexivity].
  destruct (st_size env after (quantized_path output_dir quant_type));
    reflexivity.
Qed.

Lemma st_size_exists (env : Env) (fs : FS) (p : Path) :
  Fs.exists_ fs p = true -> exists size, st_size env fs p = inr size.
Proof.
  unfold Fs.exists_, st_size.
  destruct (Fs.lookup fs p) as [[|[]]|]; try discriminate; eauto.
Qed.

(** C6.  When the quantizer executable is absent from the toolchain
    installation, [quantize_model] raises [RuntimeError] naming the missing
    binary and leaves the world as it found it: nothing is logged, no
    subprocess is started for any of the three levels, and no mapping is
    returned. *)
Theorem quantize_model_without_binary
        (env : Env) (ggml_path output_dir whisper_cpp_dir : Path) (w : World) :
  Fs.exists_ (fs w) (quantize_binary_of whisper_cpp_dir) = false ->
  quantize_model env ggml_path output_dir whisper_cpp_dir w =
    Raise (Exn RuntimeError
               ("Quantize binary not found: "
                ++ PathLib.str (quantize_binary_of whisper_cpp_dir)))
          w.
Proof.
  intros H. unfold quantize_model. unfold_monad. now rewrite H.
Qed.

Lemma quantize_model_without_binary_witness :
  quantize_model (Example.env_with Example.whisper_config 0 "")
                 Example.ggml_path Example.quantized_dir Example.whisper_cpp_dir
                 (Example.world_with []) =
    Raise (Exn RuntimeError
               "Quantize binary not found: whisper.cpp/build/bin/quantize")
          (Example.world_with []).
Proof.
  exact (quantize_model_without_binary
           (Example.env_with Example.whisper_config 0 "")
           Example.ggml_path Example.quantized_dir Example.whisper_cpp_dir
           (Example.world_with []) eq_refl).
Defined.

(** C3, as amended.  Let the quantizer be installed and let the three
    subprocesses, run in the order q8_0, q5_0, q4_0, each on the filesystem
    the previous one left, end with exactly one non-zero exit status; let
    every level that exited with zero have left its output file.  Then
    [quantize_model] returns a mapping that holds, for each of the two other
    levels, the output path and the measured size, and holds nothing for the
    failed level; the trace shows that all three levels were run, in
    order. *)
Theorem quantize_model_one_level_fails
        (env : Env) (ggml_path output_dir whisper_cpp_dir : Path) (w : World)
        (r8 r5 r4 : CompletedProcess) (fs8 fs5 fs4 : FS) :
  let call := quantize_call ggml_path output_dir whisper_cpp_dir in
  Fs.exists_ (fs w) (quantize_binary_of whisper_cpp_dir) = true ->
  subprocess_run env (call "q8_0") None (fs w) = inr (r8, fs8) ->
  subprocess_run env (call "q5_0") None fs8 = inr (r5, fs5) ->
  subprocess_run env (call "q4_0") None fs5 = inr (r4, fs4) ->
  length (filter failed [r8; r5; r4]) = 1%nat ->
  (failed r8 = false -> Fs.exists_ fs8 (quantized_path output_dir "q8_0") = true) ->
  (failed r5 = false -> Fs.exists_ fs5 (quantized_path output_dir "q5_0") = true) ->
  (failed r4 = false -> Fs.exists_ fs4 (quantized_path output_dir "q4_0") = true) ->
  exists (results : Results) (w' : World),
    quantize_model env ggml_path output_dir whisper_cpp_dir w = Ok results w'
    /\ level_outcome env output_dir results "q8_0" r8 fs8
    /\ level_outcome env output_dir results "q5_0" r5 fs5
    /\ level_outcome env output_dir results "q4_0" r4 fs4
    /\ length results = 2%nat
    /\ fs w' = fs4
    /\ trace w' =
       (trace w ++ [ SubprocessRun (call "q8_0") None;
                     SubprocessRun (call "q5_0") None;
                     SubprocessRun (call "q4_0") None ])%list.
Proof.
  intros call Hbin H8 H5 H4 Hone E8 E5 E4.
  unfold call, quantize_call, failed, level_outcome in *. clear call.
  unfold quantize_model. unfold_monad. rewrite Hbin. cbn [negb].
  unfold quantizations. cbn [quantize_loop]. unfold_monad.
  rewrite (quantize_one_run env _ _ _ _ _ _ _ _ _ H8). cbv zeta.
  cbn [filter] in Hone.
  destruct (returncode r8 =? 0) eqn:C8;
    destruct (returncode r5 =? 0) eqn:C5;
    destruct (returncode r4 =? 0) eqn:C4;
    simpl in Hone; try discriminate Hone; clear Hone;
    cbn [negb] in E8, E5, E4.
  - (* q4_0 fails *)
    destruct (st_size_exists env _ _ (E8 eq_refl)) as [s8 S8].
    destruct (st_size_exists env _ _ (E5 eq_refl)) as [s5 S5].
    rewrite S8.
    erewrite quantize_one_run by (cbn [fs]; exact H5). cbv zeta.
    rewrite C5, S5.
    erewrite quantize_one_run by (cbn [fs]; exact H4). cbv zeta.
    rewrite C4. cbn [fs log trace].
    do 2 eexists. split; [reflexivity|]. cbn [fs log trace].
    repeat split; try (eexists; split; reflexivity).
    now rewrite <- !app_assoc.
  - (* q5_0 fails *)
    destruct (st_size_exists env _ _ (E8 eq_refl)) as [s8 S8].
    destruct (st_size_exists env _ _ (E4 eq_refl)) as [s4 S4].
    rewrite S8.
    erewrite quantize_one_run by (cbn [fs]; exact H5). cbv zeta.
    rewrite C5.
    erewrite quantize_one_run by (cbn [fs]; exact H4). cbv zeta.
    rewrite C4, S4. cbn [fs log trace].
    do 2 eexists. split; [reflexivity|]. cbn [fs log trace].
    repeat split; try (eexists; split; reflexivity).
    now rewrite <- !app_assoc.
  - (* q8_0 fails *)
    destruct (st_size_exists env _ _ (E5 eq_refl)) as [s5 S5].
    destruct (st_size_exists env _ _ (E4 eq_refl)) as [s4 S4].
    erewrite quantize_one_run by (cbn [fs]; exact H5). cbv zeta.
    rewrite C5, S5.
    erewrite quantize_one_run by (cbn [fs]; exact H4). cbv zeta.
    rewrite C4, S4. cbn [fs log trace].
    do 2 eexists. split; [reflexivity|]. cbn [fs log trace].
    repeat split; try (eexists; split; reflexivity).
    now rewrite <- !app_assoc.
Qed.

Lemma quantize_model_one_level_fails_witness :
  exists (results : Results) (w' : World),
    quantize_model (Example.env_with Example.whisper_config 0 "q5_0")
                   Example.ggml_path Example.quantized_dir
                   Example.whisper_cpp_dir
                   (Example.world_with Example.installed) = Ok results w'
    /\ dict_get results "q5_0" = None
    /\ length results = 2%nat.
Proof.
  edestruct (quantize_model_one_level_fails
               (Example.env_with Example.whisper_config 0 "q5_0")
               Example.ggml_path Example.quantized_dir Example.whisper_cpp_dir
               (Example.world_with Example.installed))
    as (results & w' & Hrun & _ & H5 & _ & Hlen & _).
  - reflexivity.
  - reflexivity.
  - reflexivity.
  - reflexivity.
  - reflexivity.
  - intros _. reflexivity.
  - discriminate.
  - intros _. reflexivity.
  - exists results, w'. split; [exact Hrun|]. split; [exact H5 | exact Hlen].
Defined.

(** C3, as stated, fails: the three subprocesses are run and exactly one of
    them (q8_0) exits with a non-zero status, but q4_0 exits with zero
    without having written its output; line 255 then raises
    [FileNotFoundError] and no mapping is returned, although q5_0 had
    succeeded. *)
Lemma quantize_model_unwritten_output :
  let env := Scenario.env_of Scenario.forgetful_quantizer true in
  let w := Example.world_with Example.installed in
  let call := quantize_call Example.ggml_path Example.quantized_dir
                            Example.whisper_cpp_dir in
  let q5 := (Example.quantized_dir // "whisper-atc-q5_0.bin",
             File (Binary 330000000)) in
  let run := quantize_model env Example.ggml_path Example.quantized_dir
                            Example.whisper_cpp_dir w in
  subprocess_run env (call "q8_0") None (fs w)
  = inr (Example.exit_with 1 "" "", fs w)
  /\ subprocess_run env (call "q5_0") None (fs w)
     = inr (Example.exit_with 0 "" "", (fs w ++ [q5])%list)
  /\ subprocess_run env (call "q4_0") None (fs w ++ [q5])%list
     = inr (Example.exit_with 0 "" "", (fs w ++ [q5])%list)
  /\ filter is_SubprocessRun (trace (world_of run))
     = [ SubprocessRun (call "q8_0") None;
         SubprocessRun (call "q5_0") None;
         SubprocessRun (call "q4_0") None ]
  /\ run = Raise (Exn FileNotFoundError
                      "[Errno 2] No such file or directory: 'output/quantized/whisper-atc-q4_0.bin'")
                 (world_of run).
Proof. vm_compute. repeat split. Qed.

(** The hypothesis on the output files is what lets the loop go on: a
    level whose subprocess exits with zero without leaving its output makes
    [stat] raise [FileNotFoundError], which [quantize_model] does not
    catch. *)
Lemma quantize_one_missing_output (env : Env) (qb ggml_path output_dir : Path)
      (results : Results) (quant_type description : string) (w : World)
      (result : CompletedProcess) (after : FS) :
  subprocess_run env
    (quantize_argv qb ggml_path (quantized_path output_dir quant_type) quant_type)
    None (fs w) = inr (result, after) ->
  returncode result = 0 ->
  Fs.exists_ after (quantized_path output_dir quant_type) = false ->
  exists w',
    quantize_one env qb ggml_path output_dir results (quant_type, description) w
    = Raise (Fs.ENOENT (quantized_path output_dir quant_type)) w'.
Proof.
  intros Hrun Hcode Hmissing.
  rewrite (quantize_one_run env _ _ _ _ _ _ _ _ _ Hrun). cbv zeta.
  rewrite Hcode. cbn [Z.eqb]. unfold st_size. unfold Fs.exists_ in Hmissing.
  destruct (Fs.lookup after (quantized_path output_dir quant_type));
    [discriminate|]. eexists. reflexivity.
Qed.

(* ================================================================== *)
(** * Claims about main *)



(** A path that is missing and is neither the directory being created nor
    one of its ancestors is still missing after [mkdir]. *)
Lemma missing_after_mkdir (fs fs1 : FS) (d p : Path) :
  Fs.mkdir fs d = inr fs1 ->
  Fs.exists_ fs p = false ->
  PathLib.is_prefix p d = false ->
  Fs.exists_ fs1 p = false.
Proof.
  intros Hmk Hex Hpre. unfold Fs.exists_ in *.
  now rewrite (mkdir_frame _ _ _ _ Hmk Hpre).
Qed.

(** ... whereas the directory being created and its ancestors exist
    afterwards. *)
Lemma present_after_mkdir (fs fs1 : FS) (d p : Path) :
  Fs.mkdir fs d = inr fs1 ->
  PathLib.is_prefix p d = true ->
  Fs.exists_ fs1 p = true.
Proof.
  intros Hmk Hpre. pose proof (mkdir_ancestors _ _ _ _ Hmk Hpre) as H.
  unfold Fs.is_dir in H. unfold Fs.exists_.
  now destruct (Fs.lookup fs1 p).
Qed.





(* ================================================================== *)
(** * Claims about the discovery of the converted file *)

Lemma with_log_nil (w : World) : with_log w [] = w.
Proof. destruct w. unfold with_log. cbn. now rewrite app_nil_r. Qed.

Lemma with_log_app (w : World) (l1 l2 : list (Level * string)) :
  with_log (with_log w l1) l2 = with_log w (l1 ++ l2).
Proof. unfold with_log. cbn. now rewrite app_assoc. Qed.

(** The loop of lines 203-206 keeps the matching entries, in order, and
    only logs. *)
Lemma scan_ggml_files_filter (entries : list Path) :
  forall (acc : list Path) (w : World),
    scan_ggml_files entries acc w =
      Ok (acc ++ filter is_ggml_file entries)%list
         (with_log w (map (fun file => (INFO, ("  - " ++ PathLib.str file)%string))
                          (filter is_ggml_file entries))).
Proof.
  induction entries as [|file rest IH]; intros acc w; cbn [scan_ggml_files filter].
  - unfold ret. now rewrite app_nil_r, with_log_nil.
  - destruct (is_ggml_file file).
    + unfold bind, logger_info, logger. rewrite IH.
      f_equal.
      * now rewrite <- app_assoc.
      * unfold with_log. cbn. now rewrite <- app_assoc.
    + apply IH.
Qed.

(** Line 204 tests what it is meant to test. *)
Lemma is_ggml_file_spec (file : Path) :
  is_ggml_file file = true <->
  has_binary_extension file /\ has_marker (PathLib.name file).
Proof.
  unfold is_ggml_file, has_binary_extension, has_marker, Str.in_list.
  rewrite andb_true_iff, contains_spec. cbn [existsb].
  rewrite !orb_true_iff, !String.eqb_eq. intuition discriminate.
Qed.

(** The head of a filtered list is the first element that passes. *)
Lemma filter_head {A} (f : A -> bool) (l : list A) (x : A) (rest : list A) :
  filter f l = x :: rest ->
  exists before after,
    l = (before ++ x :: after)%list
    /\ (forall y, In y before -> f y = false)
    /\ f x = true.
Proof.
  induction l as [|a l IH]; cbn [filter]; [discriminate|].
  destruct (f a) eqn:E.
  - intros H. injection H as -> _. exists [], l. repeat split; [|assumption].
    intros y [].
  - intros H. destruct (IH H) as (before & after & -> & Hb & Hx).
    exists (a :: before), after. repeat split; [|assumption].
    intros y [<- | Hy]; [assumption | now apply Hb].
Qed.

(** ** rename *)

Lemma skipn_length_app {A} (a r : list A) : skipn (length a) (a ++ r) = r.
Proof. induction a; [reflexivity | assumption]. Qed.

Lemma rekey_source (a b : Path) : Fs.rekey a b a = b.
Proof.
  unfold Fs.rekey. rewrite is_prefix_refl, skipn_all. apply app_nil_r.
Qed.

Lemma rekey_hits_target (a b q : Path) :
  q <> b -> Fs.rekey a b q = b -> q = a.
Proof.
  unfold Fs.rekey. intros Hne.
  destruct (PathLib.is_prefix a q) eqn:E; [|congruence].
  apply is_prefix_spec in E as [r ->]. rewrite skipn_length_app.
  intros H. rewrite <- (app_nil_r b) in H at 2. apply app_inv_head in H.
  subst r. apply app_nil_r.
Qed.

Lemma rekey_hits_source (a b q : Path) :
  length a = length b -> a <> b -> Fs.rekey a b q <> a.
Proof.
  unfold Fs.rekey. intros Hlen Hne.
  destruct (PathLib.is_prefix a q) eqn:E.
  - apply is_prefix_spec in E as [r ->]. rewrite skipn_length_app.
    intros H. assert (r = []) as ->.
    { apply (f_equal (@length string)) in H. rewrite length_app in H.
      destruct r; [reflexivity | cbn in H; lia]. }
    rewrite app_nil_r in H. congruence.
  - intros ->. now rewrite is_prefix_refl in E.
Qed.

Lemma find_moved_target (fs : FS) (a b : Path) :
  a <> b ->
  Fs.find (map (fun e => (Fs.rekey a b (fst e), snd e)) (Fs.remove fs b)) b
  = Fs.find fs a.
Proof.
  intros Hne. induction fs as [|[q n] fs IH]; [reflexivity|].
  cbn [Fs.remove filter fst Fs.find]. fold (Fs.remove fs b).
  destruct (PathLib.eqb q b) eqn:Eb; cbn [negb].
  - apply path_eqb_eq in Eb. subst q.
    destruct (PathLib.eqb b a) eqn:Ea; [|exact IH].
    apply path_eqb_eq in Ea. congruence.
  - apply path_eqb_neq in Eb. cbn [map fst snd Fs.find].
    destruct (PathLib.eqb q a) eqn:Ea.
    + apply path_eqb_eq in Ea. subst q. now rewrite rekey_source, path_eqb_refl.
    + apply path_eqb_neq in Ea.
      destruct (PathLib.eqb (Fs.rekey a b q) b) eqn:Ek; [|exact IH].
      apply path_eqb_eq in Ek. now apply rekey_hits_target in Ek.
Qed.

Lemma find_moved_source (fs : FS) (a b : Path) :
  length a = length b -> a <> b ->
  Fs.find (map (fun e => (Fs.rekey a b (fst e), snd e)) (Fs.remove fs b)) a
  = None.
Proof.
  intros Hlen Hne. induction (Fs.remove fs b) as [|[q n] l IH]; [reflexivity|].
  cbn [map fst snd Fs.find].
  destruct (PathLib.eqb (Fs.rekey a b q) a) eqn:Ek; [|exact IH].
  apply path_eqb_eq in Ek. now apply rekey_hits_source in Ek.
Qed.

(** A successful rename to another path puts the source's node at the
    target; between two paths of the same depth it leaves nothing at the
    source. *)
Lemma rename_moves (fs fs' : FS) (a b : Path) :
  Fs.rename fs a b = inr fs' -> a <> b ->
  Fs.lookup fs' b = Fs.lookup fs a
  /\ (length a = length b -> Fs.lookup fs' a = None).
Proof.
  unfold Fs.rename. intros H Hne.
  destruct (Fs.lookup fs a) as [src|] eqn:Ha; [|discriminate].
  destruct a as [|a0 a]; [discriminate|].
  destruct b as [|b0 b]; [discriminate|].
  rewrite (proj2 (path_eqb_neq _ _) Hne) in H.
  destruct (PathLib.is_prefix (a0 :: a) (b0 :: b)); [discriminate|].
  assert (Hmoved :
            map (fun e => (Fs.rekey (a0 :: a) (b0 :: b) (fst e), snd e))
                (Fs.remove fs (b0 :: b)) = fs').
  { destruct (Fs.lookup fs (PathLib.parent (b0 :: b))) as [[|?]|];
      try discriminate.
    destruct src, (Fs.lookup fs (b0 :: b)) as [[|?]|]; try discriminate;
      try (destruct (Fs.children fs (b0 :: b)); try discriminate);
      now injection H. }
  subst fs'. cbn [Fs.lookup] in *. split.
  - rewrite find_moved_target by assumption. exact Ha.
  - intros Hlen. now apply find_moved_source.
Qed.

(** Lines 199-215, step by step. *)
Lemma collect_ggml_output_steps (output_dir output_path : Path) (w : World)
      (entries : list Path) :
  Fs.iterdir (fs w) output_dir = inr entries ->
  collect_ggml_output output_dir output_path w =
    let scanned := with_log w (scan_logs output_dir entries) in
    match filter is_ggml_file entries with
    | [] =>
        Raise (Exn RuntimeError
                   ("No GGML output file found in " ++ PathLib.str output_dir))
              scanned
    | actual_output :: _ =>
        if PathLib.eqb actual_output output_path then Ok tt scanned
        else
          match Fs.rename (fs w) actual_output output_path with
          | inr fs' =>
              Ok tt {| fs := fs';
                       log := (log scanned ++
                                 [(INFO, ("  → Renamed to "
                                          ++ PathLib.str output_path)%string)])%list;
                       trace := trace w |}
          | inl e => Raise e scanned
          end
    end.
Proof.
  intros Hdir. unfold collect_ggml_output.
  unfold bind at 1. unfold logger_info at 1, logger at 1.
  unfold bind at 1. unfold logger_info at 1, logger at 1.
  unfold bind at 1. unfold fs_read at 1. cbn [fs log trace]. rewrite Hdir.
  unfold bind at 1. rewrite scan_ggml_files_filter. cbn [app]. cbv zeta.
  assert (Hw : with_log
                 {| fs := fs w;
                    log := ((log w ++
                               [(INFO, ("Conversion completed. Output directory: "
                                        ++ PathLib.str output_dir)%string)]) ++
                              [(INFO, "Generated files:")])%list;
                    trace := trace w |}
                 (map (fun file => (INFO, ("  - " ++ PathLib.str file)%string))
                      (filter is_ggml_file entries))
               = with_log w (scan_logs output_dir entries)).
  { unfold with_log, scan_logs. cbn [fs log trace]. f_equal.
    now rewrite <- !app_assoc. }
  rewrite Hw.
  destruct (filter is_ggml_file entries) as [|actual_output rest];
    [reflexivity|].
  destruct (PathLib.eqb actual_output output_path); cbn [negb]; [reflexivity|].
  unfold bind, fs_do, logger_info, logger. cbn [fs log trace with_log].
  destruct (Fs.rename (fs w) actual_output output_path); reflexivity.
Qed.

(** C4.  Once the conversion script has run, [collect_ggml_output] looks at
    the entries of the output directory.  An entry is a candidate exactly
    when its extension is [.bin] or [.ggml] and its name contains [ggml].
    Without a candidate it raises [RuntimeError] "No GGML output file
    found".  Otherwise it takes the first candidate in iteration order; when
    that is already the requested output path nothing is moved, and when it
    is not, it is renamed to the output path: after a successful rename the
    output path holds what the candidate held, and a candidate lying next
    to the output path is gone from its old place. *)
Theorem collect_ggml_output_discovers
        (output_dir output_path : Path) (w : World) (entries : list Path) :
  Fs.iterdir (fs w) output_dir = inr entries ->
  (forall file, is_ggml_file file = true <->
                has_binary_extension file /\ has_marker (PathLib.name file))
  /\ match filter is_ggml_file entries with
     | [] =>
         collect_ggml_output output_dir output_path w =
           Raise (Exn RuntimeError
                      ("No GGML output file found in " ++ PathLib.str output_dir))
                 (with_log w (scan_logs output_dir entries))
     | actual_output :: _ =>
         (exists before after,
             entries = (before ++ actual_output :: after)%list
             /\ (forall file, In file before -> is_ggml_file file = false)
             /\ is_ggml_file actual_output = true)
         /\ (actual_output = output_path ->
             collect_ggml_output output_dir output_path w =
               Ok tt (with_log w (scan_logs output_dir entries)))
         /\ (actual_output <> output_path ->
             match Fs.rename (fs w) actual_output output_path with
             | inr fs' =>
                 collect_ggml_output output_dir output_path w =
                   Ok tt {| fs := fs';
                            log := (log w ++ scan_logs output_dir entries ++
                                      [(INFO, ("  → Renamed to "
                                               ++ PathLib.str output_path)%string)])%list;
                            trace := trace w |}
                 /\ Fs.lookup fs' output_path = Fs.lookup (fs w) actual_output
                 /\ (length actual_output = length output_path ->
                     Fs.lookup fs' actual_output = None)
             | inl e =>
                 collect_ggml_output output_dir output_path w =
                   Raise e (with_log w (scan_logs output_dir entries))
             end)
     end.
Proof.
  intros Hdir. split; [exact is_ggml_file_spec|].
  rewrite (collect_ggml_output_steps _ _ _ _ Hdir). cbv zeta.
  destruct (filter is_ggml_file entries) as [|actual_output rest] eqn:Hf;
    [reflexivity|].
  split; [exact (filter_head _ _ _ _ Hf)|]. split.
  - intros ->. now rewrite path_eqb_refl.
  - intros Hne. rewrite (proj2 (path_eqb_neq _ _) Hne).
    destruct (Fs.rename (fs w) actual_output output_path) as [e|fs'] eqn:Hmv;
      [reflexivity|].
    split.
    + cbn [with_log log]. now rewrite <- app_assoc.
    + now apply rename_moves.
Qed.

Lemma collect_ggml_output_discovers_witness :
  let disk : FS :=
    (Example.installed ++
       [ (Example.quantized_dir, Dir);
         (Example.quantized_dir // "whisper_compatible.pt", File (Binary 7));
         (Example.quantized_dir // "notes.bin", File (Binary 1));
         (Example.quantized_dir // "ggml-model-f32.bin", File (Binary 967));
         (Example.quantized_dir // "ggml-model.ggml", File (Binary 5)) ])%list in
  fs (world_of (collect_ggml_output Example.quantized_dir Example.ggml_path
                                    (Example.world_with disk)))
  = (Example.installed ++
       [ (Example.quantized_dir, Dir);
         (Example.quantized_dir // "whisper_compatible.pt", File (Binary 7));
         (Example.quantized_dir // "notes.bin", File (Binary 1));
         (Example.ggml_path, File (Binary 967));
         (Example.quantized_dir // "ggml-model.ggml", File (Binary 5)) ])%list.
Proof.
  intros disk.
  pose proof (collect_ggml_output_discovers
                Example.quantized_dir Example.ggml_path
                (Example.world_with disk) _ eq_refl) as [_ H].
  remember (collect_ggml_output Example.quantized_dir Example.ggml_path
                                (Example.world_with disk)) as run eqn:Erun.
  clear Erun. vm_compute in H. destruct H as (_ & _ & H).
  destruct (H ltac:(discriminate)) as [Hrun _].
  rewrite Hrun. vm_compute. reflexivity.
Defined.

(** A path's verdict depends on its last component only. *)
Lemma is_ggml_file_div (dir : Path) (name : string) :
  is_ggml_file (dir // name) = is_ggml_file [name].
Proof.
  unfold is_ggml_file, PathLib.suffix. now rewrite name_div.
Qed.

(** C10.  None of the names the pipeline gives to what it writes in the
    output directory -- [whisper-atc.bin] for the converted binary (line
    296) and [whisper-atc-<level>.bin] for the three quantized files (line
    243) -- contains the marker [ggml].  So whatever the output directory
    holds, the scan of lines 203-206 never collects a file of one of these
    names, and [collect_ggml_output] never takes one as the conversion
    script's output. *)
Theorem pipeline_outputs_never_discovered (output_dir : Path) :
  pipeline_names =
    [ "whisper-atc.bin"; "whisper-atc-q8_0.bin"; "whisper-atc-q5_0.bin";
      "whisper-atc-q4_0.bin" ]
  /\ (forall quant, In quant quantizations ->
        In (PathLib.name (quantized_path output_dir (fst quant)))
           pipeline_names)
  /\ (forall name, In name pipeline_names ->
        Str.contains "ggml" name = false
        /\ ~ has_marker name
        /\ is_ggml_file (output_dir // name) = false)
  /\ (forall entries acc w,
        exists files w',
          scan_ggml_files entries acc w = Ok files w'
          /\ forall name, In name pipeline_names ->
               In (output_dir // name) files -> In (output_dir // name) acc)
  /\ (forall entries actual_output rest name,
        filter is_ggml_file entries = actual_output :: rest ->
        In name pipeline_names ->
        actual_output <> output_dir // name).
Proof.
  assert (Hnames : forall name, In name pipeline_names ->
                                Str.contains "ggml" name = false
                                /\ is_ggml_file (output_dir // name) = false).
  { intros name Hin. rewrite is_ggml_file_div.
    cbn in Hin. repeat (destruct Hin as [<- | Hin]; [now vm_compute|]).
    contradiction. }
  split; [reflexivity|]. split.
  { intros quant Hin. unfold quantized_path. rewrite name_div.
    cbn in Hin. repeat (destruct Hin as [<- | Hin]; [cbn; tauto|]).
    contradiction. }
  split.
  { intros name Hin. destruct (Hnames name Hin) as [Hc Hf].
    repeat split; try assumption.
    intros Hm. apply contains_spec in Hm. congruence. }
  split.
  { intros entries acc w. do 2 eexists.
    split; [apply scan_ggml_files_filter|].
    intros name Hin Hfiles. apply in_app_or in Hfiles as [H | H]; [exact H|].
    apply filter_In in H as [_ H]. destruct (Hnames name Hin). congruence. }
  intros entries actual_output rest name Hf Hin ->.
  assert (H : In (output_dir // name) (filter is_ggml_file entries))
    by (rewrite Hf; now left).
  apply filter_In in H as [_ H]. destruct (Hnames name Hin). congruence.
Qed.

(* ================================================================== *)
(** * What setup_whisper_assets leaves alone *)

Section Untouched.

Variable q : Path.

Lemma untouched_refl (w : World) : untouched q w w.
Proof. now split. Qed.

Lemma untouched_trans (w1 w2 w3 : World) :
  untouched q w1 w2 -> untouched q w2 w3 -> untouched q w1 w3.
Proof. intros [H1 H2] [H3 H4]. split; [auto | congruence]. Qed.

Lemma preserves_ret {A} (a : A) : preserves q (ret a).
Proof. intros w. apply untouched_refl. Qed.

Lemma preserves_raise {A} (e : exn) : preserves q (@raise A e).
Proof. intros w. apply untouched_refl. Qed.

Lemma preserves_logger (l : Level) (msg : string) : preserves q (logger l msg).
Proof. intros w. split; [intros c H; exact H | reflexivity]. Qed.

Lemma preserves_path_exists (p : Path) : preserves q (path_exists p).
Proof. intros w. apply untouched_refl. Qed.

Lemma preserves_emit (ev : Event) :
  is_TorchSave ev = false -> preserves q (emit ev).
Proof.
  intros Hev w. split; [intros c H; exact H|]. cbn [emit world_of trace].
  rewrite filter_app. cbn [filter]. rewrite Hev. apply app_nil_r.
Qed.

Lemma preserves_bind {A B} (m : M A) (k : A -> M B) :
  preserves q m -> (forall a, preserves q (k a)) -> preserves q (bind m k).
Proof.
  intros Hm Hk w. unfold bind. specialize (Hm w).
  destruct (m w) as [a w1|e w1]; cbn [world_of] in Hm; [|exact Hm].
  exact (untouched_trans _ _ _ Hm (Hk a w1)).
Qed.

Lemma preserves_try {A} (m : M A) (catches : exn -> bool)
      (handler : exn -> M A) :
  preserves q m -> (forall e, preserves q (handler e)) ->
  preserves q (try_except m catches handler).
Proof.
  intros Hm Hh w. unfold try_except. specialize (Hm w).
  destruct (m w) as [a w1|e w1]; cbn [world_of] in Hm; [exact Hm|].
  destruct (catches e); [|exact Hm].
  exact (untouched_trans _ _ _ Hm (Hh e w1)).
Qed.

Lemma preserves_fs_do (op : FS -> exn + FS) :
  (forall fs fs' c, op fs = inr fs' ->
                    Fs.lookup fs' q = Some (File c) ->
                    Fs.lookup fs q = Some (File c)) ->
  preserves q (fs_do op).
Proof.
  intros Hop w. unfold fs_do.
  destruct (op (fs w)) as [e|fs'] eqn:E; [apply untouched_refl|].
  split; [intros c; now apply Hop | reflexivity].
Qed.

Lemma preserves_mkdir (p : Path) : preserves q (mkdir p).
Proof.
  apply preserves_fs_do. intros fs fs' c H.
  now apply (mkdir_from_files p p [] fs fs').
Qed.

Lemma preserves_write_file (p : Path) (c : content) :
  q <> p -> preserves q (write_file p c).
Proof.
  intros Hp. apply preserves_fs_do. intros fs fs' c' H.
  now rewrite (write_frame fs fs' p q c H Hp).
Qed.

Lemma preserves_import (env : Env) (name : string) :
  preserves q (import env name).
Proof.
  unfold import. destruct (import_module env name);
    [apply preserves_raise | apply preserves_ret].
Qed.

Lemma preserves_url_retrieve (env : Env) (url : string) (dst : Path) :
  q <> dst -> preserves q (url_retrieve env url dst).
Proof.
  intros Hp. unfold url_retrieve.
  apply preserves_bind; [now apply preserves_emit|]. intros _.
  destruct (urlretrieve env url);
    [apply preserves_raise | now apply preserves_write_file].
Qed.

End Untouched.

(** [setup_whisper_assets] creates directories and writes the two asset
    files, and never calls [torch.save]. *)
Lemma setup_whisper_assets_preserves
      (env : Env) (whisper_cpp_dir dir : Path) (name : string) :
  name <> "mel_filters.npz" -> name <> "vocab.json" ->
  preserves (dir // name) (setup_whisper_assets env whisper_cpp_dir).
Proof.
  intros H4 H5.
  assert (Hmel : dir // name <>
                 whisper_cpp_dir // "whisper" // "assets" // "mel_filters.npz")
    by (intros E; apply div_inj in E; tauto).
  assert (Hvoc : dir // name <>
                 whisper_cpp_dir // "whisper" // "assets" // "gpt2" // "vocab.json")
    by (intros E; apply div_inj in E; tauto).
  unfold setup_whisper_assets. cbv zeta.
  repeat first
         [ apply preserves_bind; [|intros ?]
         | apply preserves_try; [|intros ?]
         | apply preserves_ret
         | apply preserves_raise
         | apply preserves_logger
         | apply preserves_path_exists
         | apply preserves_import
         | apply preserves_emit; reflexivity
         | apply preserves_mkdir
         | apply preserves_write_file; assumption
         | apply preserves_url_retrieve; assumption
         | match goal with
           | |- preserves _ (if ?b then _ else _) => destruct b
           | |- preserves _ (match ?o with Some _ => _ | None => _ end) =>
               destruct o
           end ].
Qed.

(* ================================================================== *)
(** * Claims about failures of convert_hf_to_ggml *)

(** The [try ... except Exception] of lines 134-225: whatever the body
    raises is logged and replaced by the one [RuntimeError]. *)
Lemma convert_hf_to_ggml_wraps
      (env : Env) (model_path output_path whisper_cpp_dir : Path) (w : World) :
  convert_hf_to_ggml env model_path output_path whisper_cpp_dir w =
    match convert_hf_to_ggml_body env model_path output_path whisper_cpp_dir
                                  (with_log w (converting_log model_path)) with
    | Ok a w' => Ok a w'
    | Raise e w' => Raise convert_failed (with_log w' (convert_error_log e))
    end.
Proof.
  unfold convert_hf_to_ggml. unfold bind at 1, try_except.
  unfold logger_info at 1, logger at 1.
  fold (with_log w (converting_log model_path)).
  destruct (convert_hf_to_ggml_body _ _ _ _ _); reflexivity.
Qed.

Lemma setup_whisper_assets_keeps_checkpoint
      (env : Env) (whisper_cpp_dir output_path : Path) (w : World) :
  untouched (compatible_pt_of output_path) w
            (world_of (setup_whisper_assets env whisper_cpp_dir w)).
Proof.
  apply (setup_whisper_assets_preserves
           env whisper_cpp_dir (PathLib.parent output_path)
           "whisper_compatible.pt"); discriminate.
Qed.

(** With a dimension field missing, lines 141-172 raise before the output
    directory is created or anything is saved. *)
Lemma save_compatible_checkpoint_lacking
      (env : Env) (model_path output_path : Path) (w : World) :
  (forall fs m, from_pretrained env model_path fs = inr m ->
                lacks_dimension (config m)) ->
  exists e w',
    save_compatible_checkpoint env model_path output_path w = Raise e w'
    /\ fs w' = fs w
    /\ trace w' = (trace w ++ [FromPretrained model_path])%list.
Proof.
  intros Hlack. unfold save_compatible_checkpoint. unfold_monad.
  destruct (from_pretrained env model_path (fs w)) as [e|m] eqn:Hm.
  - do 2 eexists. split; [reflexivity|]. now split.
  - destruct (build_dims_lacking _ (Hlack _ _ Hm)) as [msg Hd].
    rewrite Hd. unfold_monad. do 2 eexists. split; [reflexivity|]. now split.
Qed.

(** C1, as amended.  When the loaded configuration lacks one of the
    dimension fields, [convert_hf_to_ggml] raises its [RuntimeError]
    ("Failed to convert model to GGML format"), [torch.save] is never called
    and no intermediate checkpoint is produced: a file found at the
    checkpoint's path after the run was there before it, unchanged.
    Nothing is said about zero or negative values: the code does not look
    at them. *)
Theorem convert_fails_on_missing_dimension
        (env : Env) (model_path output_path whisper_cpp_dir : Path) (w : World) :
  (forall fs m, from_pretrained env model_path fs = inr m ->
                lacks_dimension (config m)) ->
  exists w',
    convert_hf_to_ggml env model_path output_path whisper_cpp_dir w
    = Raise convert_failed w'
    /\ filter is_TorchSave (trace w') = filter is_TorchSave (trace w)
    /\ (forall c,
          Fs.lookup (fs w') (compatible_pt_of output_path) = Some (File c) ->
          Fs.lookup (fs w) (compatible_pt_of output_path) = Some (File c)).
Proof.
  intros Hlack. rewrite convert_hf_to_ggml_wraps.
  set (w0 := with_log w (converting_log model_path)).
  unfold convert_hf_to_ggml_body.
  unfold bind at 1. unfold import at 1.
  destruct (import_module env "torch") as [e|].
  { eexists. split; [reflexivity|]. now split. }
  unfold ret at 1. unfold bind at 1. unfold import at 1.
  destruct (import_module env "transformers") as [e|].
  { eexists. split; [reflexivity|]. now split. }
  unfold ret at 1. unfold bind at 1.
  destruct (setup_whisper_assets_keeps_checkpoint
              env whisper_cpp_dir output_path w0) as [Hfs Htr].
  destruct (setup_whisper_assets env whisper_cpp_dir w0) as [[] w1|e w1];
    cbn [world_of] in Htr, Hfs.
  - unfold bind at 1.
    destruct (save_compatible_checkpoint_lacking env model_path output_path w1 Hlack)
      as (e & w2 & Hsave & Hfs2 & Htr2).
    rewrite Hsave. eexists. split; [reflexivity|].
    cbn [with_log fs trace]. rewrite Hfs2, Htr2. split.
    + rewrite filter_app. cbn [filter is_TorchSave]. now rewrite app_nil_r.
    + exact Hfs.
  - eexists. split; [reflexivity|]. cbn [with_log fs trace]. now split.
Qed.

Lemma convert_fails_on_missing_dimension_witness :
  exists w',
    convert_hf_to_ggml (Example.env_with Example.no_vocab_config 0 "")
                       Example.model_path Example.ggml_path
                       Example.whisper_cpp_dir
                       (Example.world_with Example.installed)
    = Raise convert_failed w'
    /\ filter is_TorchSave (trace w') = [].
Proof.
  destruct (convert_fails_on_missing_dimension
              (Example.env_with Example.no_vocab_config 0 "")
              Example.model_path Example.ggml_path Example.whisper_cpp_dir
              (Example.world_with Example.installed)) as (w' & Hrun & Htr & _).
  - intros fs m Hm. injection Hm as <-.
    exists "n_vocab", "vocab_size". split; [|reflexivity].
    cbn. tauto.
  - exists w'. split; [exact Hrun | exact Htr].
Defined.

(** C1, as stated, fails for a zero value: with [num_mel_bins = 0] the
    conversion runs to its end; the checkpoint given to [torch.save], and
    read by the conversion script, carries [n_mels = 0]. *)
Lemma convert_accepts_zero_dimension :
  let run := convert_hf_to_ggml
               (Example.env_with Example.zero_mels_config 0 "")
               Example.model_path Example.ggml_path Example.whisper_cpp_dir
               (Example.world_with Example.installed) in
  getattr Example.zero_mels_config "num_mel_bins" = Some 0
  /\ (exists w', run = Ok tt w')
  /\ (exists saved,
         In (TorchSave saved (Example.quantized_dir // "whisper_compatible.pt"))
            (trace (world_of run))
         /\ dict_get (dims saved) "n_mels" = Some 0)
  /\ Fs.lookup (fs (world_of run)) Example.ggml_path
     = Some (File (Binary 967000000)).
Proof.
  vm_compute. split; [reflexivity|]. split; [eexists; reflexivity|].
  split; [|reflexivity].
  eexists. split; [repeat first [left; reflexivity | right] | reflexivity].
Qed.

(** C2, as amended.  Let the conversion reach the conversion script -- the
    imports and the set-up of the assets succeed, the compatible checkpoint
    is saved, the script is present -- and let the script's subprocess exit
    with a non-zero status.  Then [convert_hf_to_ggml] raises its
    [RuntimeError] with the fixed message; the captured standard error and
    standard output are written to the error log, not carried by the
    exception; and the function does no clean-up: the filesystem is the one
    the subprocess left, in which the checkpoint saved for it was present
    when it started. *)
Theorem convert_fails_when_script_fails
        (env : Env) (model_path output_path whisper_cpp_dir : Path)
        (w w1 w2 : World) (saved : Path * Path)
        (result : CompletedProcess) (after : FS) :
  let argv := converter_argv env whisper_cpp_dir (fst saved) (snd saved) in
  import_module env "torch" = None ->
  import_module env "transformers" = None ->
  setup_whisper_assets env whisper_cpp_dir
                       (with_log w (converting_log model_path)) = Ok tt w1 ->
  save_compatible_checkpoint env model_path output_path w1 = Ok saved w2 ->
  Fs.exists_ (fs w2) (convert_script_of whisper_cpp_dir) = true ->
  subprocess_run env argv None (fs w2) = inr (result, after) ->
  returncode result <> 0 ->
  convert_hf_to_ggml env model_path output_path whisper_cpp_dir w =
    Raise (Exn RuntimeError "Failed to convert model to GGML format")
          {| fs := after;
             log := (log w2 ++ conversion_failure_logs whisper_cpp_dir result)%list;
             trace := (trace w2 ++ [SubprocessRun argv None])%list |}
  /\ saved = (compatible_pt_of output_path, PathLib.parent output_path)
  /\ exists checkpoint,
      Fs.lookup (fs w2) (compatible_pt_of output_path)
      = Some (File (Pickle checkpoint)).
Proof.
  intros argv Htorch Htrans Hsetup Hsave Hscript Hrun Hcode.
  split.
  - rewrite convert_hf_to_ggml_wraps. unfold convert_hf_to_ggml_body.
    unfold bind at 1. unfold import at 1. rewrite Htorch. unfold ret at 1.
    unfold bind at 1. unfold import at 1. rewrite Htrans. unfold ret at 1.
    unfold bind at 1. rewrite Hsetup.
    unfold bind at 1. rewrite Hsave. destruct saved as [compatible_pt output_dir].
    unfold bind at 1. unfold run_convert_script. cbv zeta.
    unfold bind at 1. unfold path_exists at 1. rewrite Hscript. cbn [negb].
    unfold_monad. cbn [fst snd] in argv. fold argv. rewrite Hrun.
    apply Z.eqb_neq in Hcode. rewrite Hcode. cbn [negb].
    unfold convert_failed, with_log, convert_error_log, conversion_failure_logs.
    cbn [fs log trace str_exn]. f_equal. f_equal.
    now rewrite <- !app_assoc.
  - apply save_compatible_checkpoint_ok in Hsave
      as (m & d & fs1 & _ & _ & _ & Hw & -> & _).
    split; [reflexivity|]. eexists. exact (write_lookup _ _ _ _ Hw).
Qed.

Lemma convert_fails_when_script_fails_witness :
  convert_hf_to_ggml (Example.env_with Example.whisper_config 1 "")
                     Example.model_path Example.ggml_path
                     Example.whisper_cpp_dir
                     (Example.world_with Example.installed)
  = Raise (Exn RuntimeError "Failed to convert model to GGML format")
          (world_of
             (convert_hf_to_ggml (Example.env_with Example.whisper_config 1 "")
                                 Example.model_path Example.ggml_path
                                 Example.whisper_cpp_dir
                                 (Example.world_with Example.installed))).
Proof.
  edestruct (convert_fails_when_script_fails
               (Example.env_with Example.whisper_config 1 "")
               Example.model_path Example.ggml_path Example.whisper_cpp_dir
               (Example.world_with Example.installed)) as [Hrun _].
  - reflexivity.
  - reflexivity.
  - vm_compute. reflexivity.
  - vm_compute. reflexivity.
  - vm_compute. reflexivity.
  - vm_compute. reflexivity.
  - vm_compute. discriminate.
  - rewrite Hrun. reflexivity.
Defined.

(** C2, as stated, fails: when the conversion script exits with status 1
    (changing nothing on disk), the exception raised is the fixed
    [RuntimeError], which holds neither the captured output ("loading
    checkpoint") nor the captured error ("Traceback") -- these are in the
    log --, and the intermediate checkpoint [whisper_compatible.pt] is still
    on disk afterwards. *)
Lemma convert_leaves_checkpoint_on_failure :
  let env := Example.env_with Example.whisper_config 1 "" in
  let run := convert_hf_to_ggml env Example.model_path Example.ggml_path
                                Example.whisper_cpp_dir
                                (Example.world_with Example.installed) in
  let compatible_pt := Example.quantized_dir // "whisper_compatible.pt" in
  (exists result after,
      subprocess_run env
        (converter_argv env Example.whisper_cpp_dir compatible_pt
                        Example.quantized_dir)
        None (fs (world_of run)) = inr (result, after)
      /\ returncode result = 1
      /\ stdout result = "loading checkpoint"
      /\ stderr result = "Traceback")
  /\ (exists w', run = Raise (Exn RuntimeError
                                  "Failed to convert model to GGML format") w')
  /\ In (ERROR, "stderr: Traceback") (log (world_of run))
  /\ In (ERROR, "stdout: loading checkpoint") (log (world_of run))
  /\ Fs.exists_ (fs (world_of run)) compatible_pt = true
  /\ exists checkpoint,
      Fs.lookup (fs (world_of run)) compatible_pt
      = Some (File (Pickle checkpoint)).
Proof.
  vm_compute. split; [do 2 eexists; repeat split|].
  split; [eexists; reflexivity|].
  split; [repeat first [left; reflexivity | right]|].
  split; [repeat first [left; reflexivity | right]|].
  split; [reflexivity | eexists; reflexivity].
Qed.

(* ================================================================== *)
(** * Running a sequence step by step *)

Lemma bind_ok {A B} (m : M A) (k : A -> M B) (w w' : World) (a : A) :
  m w = Ok a w' -> bind m k w = k a w'.
Proof. intros H. unfold bind. now rewrite H. Qed.

Lemma bind_raise {A B} (m : M A) (k : A -> M B) (w w' : World) (e : exn) :
  m w = Raise e w' -> bind m k w = Raise e w'.
Proof. intros H. unfold bind. now rewrite H. Qed.

Lemma try_ok {A} (m : M A) (catches : exn -> bool) (handler : exn -> M A)
      (w w' : World) (a : A) :
  m w = Ok a w' -> try_except m catches handler w = Ok a w'.
Proof. intros H. unfold try_except. now rewrite H. Qed.

Lemma try_caught {A} (m : M A) (catches : exn -> bool) (handler : exn -> M A)
      (w w' : World) (e : exn) :
  m w = Raise e w' -> catches e = true ->
  try_except m catches handler w = handler e w'.
Proof. intros H Hc. unfold try_except. now rewrite H, Hc. Qed.

Lemma try_uncaught {A} (m : M A) (catches : exn -> bool)
      (handler : exn -> M A) (w w' : World) (e : exn) :
  m w = Raise e w' -> catches e = false ->
  try_except m catches handler w = Raise e w'.
Proof. intros H Hc. unfold try_except. now rewrite H, Hc. Qed.

Lemma run_ok (env : Env) (argv : list string) (dir : option Path)
      (w : World) (result : CompletedProcess) (after : FS) :
  subprocess_run env argv dir (fs w) = inr (result, after) ->
  run env argv dir w =
    Ok result {| fs := after; log := log w;
                 trace := (trace w ++ [SubprocessRun argv dir])%list |}.
Proof. intros H. unfold run. unfold_monad. now rewrite H. Qed.

Lemma run_raises (env : Env) (argv : list string) (dir : option Path)
      (w : World) (e : exn) :
  subprocess_run env argv dir (fs w) = inl e ->
  run env argv dir w =
    Raise e {| fs := fs w; log := log w;
               trace := (trace w ++ [SubprocessRun argv dir])%list |}.
Proof. intros H. unfold run. unfold_monad. now rewrite H. Qed.

(* ================================================================== *)
(** * download_whisper_cpp *)

(** X1.  When [git clone] exits with a non-zero status,
    [download_whisper_cpp] raises [RuntimeError] "Failed to clone
    whisper.cpp" and the build is not started: [git clone] is the only
    subprocess of the run. *)
Theorem download_clone_fails (env : Env) (w : World)
        (result : CompletedProcess) (after : FS) :
  Fs.exists_ (fs w) whisper_cpp = false ->
  subprocess_run env git_clone (Some (cwd env)) (fs w) = inr (result, after) ->
  returncode result <> 0 ->
  download_whisper_cpp env w =
    Raise (Exn RuntimeError "Failed to clone whisper.cpp")
          {| fs := after;
             log := (log w ++ [(INFO, "📥 Downloading whisper.cpp...")])%list;
             trace := (trace w ++
                         [SubprocessRun git_clone (Some (cwd env))])%list |}.
Proof.
  intros Hex Hrun Hcode. unfold download_whisper_cpp. cbv zeta.
  fold whisper_cpp. fold git_clone.
  unfold bind at 1. unfold path_exists at 1. rewrite Hex.
  unfold bind at 1. unfold logger_info at 1, logger at 1.
  unfold bind at 1. erewrite run_ok by (cbn [fs]; exact Hrun).
  apply Z.eqb_neq in Hcode. now rewrite Hcode.
Qed.

Lemma download_clone_fails_witness :
  download_whisper_cpp (Example.env_with Example.whisper_config 0 "")
                       (Example.world_with []) =
    Raise (Exn RuntimeError "Failed to clone whisper.cpp")
          {| fs := [];
             log := [(INFO, "📥 Downloading whisper.cpp...")];
             trace := [SubprocessRun git_clone (Some [])] |}.
Proof.
  exact (download_clone_fails
           (Example.env_with Example.whisper_config 0 "")
           (Example.world_with []) (Example.exit_with 128 "" "") []
           eq_refl eq_refl ltac:(discriminate)).
Defined.

(** X2.  Existence of [./whisper.cpp] is the only thing
    [download_whisper_cpp] checks, so a failed build is never retried: when
    the clone succeeds and leaves the directory but [make] exits with a
    non-zero status, the call raises [RuntimeError] "Failed to build
    whisper.cpp", and a second call on the world it left returns the
    directory without starting any subprocess. *)
Theorem download_failed_build_not_retried (env : Env) (w : World)
        (cloned built : CompletedProcess) (fs1 fs2 : FS) :
  Fs.exists_ (fs w) whisper_cpp = false ->
  subprocess_run env git_clone (Some (cwd env)) (fs w) = inr (cloned, fs1) ->
  returncode cloned = 0 ->
  subprocess_run env ["make"] (Some whisper_cpp) fs1 = inr (built, fs2) ->
  returncode built <> 0 ->
  Fs.exists_ fs2 whisper_cpp = true ->
  exists w1,
    download_whisper_cpp env w =
      Raise (Exn RuntimeError "Failed to build whisper.cpp") w1
    /\ fs w1 = fs2
    /\ trace w1 = (trace w ++ [ SubprocessRun git_clone (Some (cwd env));
                                SubprocessRun ["make"] (Some whisper_cpp) ])%list
    /\ download_whisper_cpp env w1 =
         Ok whisper_cpp
            (with_log w1 [(INFO, "✅ whisper.cpp already exists")]).
Proof.
  intros Hex Hclone Hc0 Hmake Hb Hex2.
  eexists. split; [|split; [|split]].
  - unfold download_whisper_cpp. cbv zeta. fold whisper_cpp. fold git_clone.
    unfold bind at 1. unfold path_exists at 1. rewrite Hex.
    unfold bind at 1. unfold logger_info at 1, logger at 1.
    unfold bind at 1. erewrite run_ok by (cbn [fs]; exact Hclone).
    rewrite Hc0. cbn [Z.eqb negb].
    unfold bind at 1. unfold logger_info at 1, logger at 1. cbn [fs log trace].
    unfold bind at 1. erewrite run_ok by (cbn [fs]; exact Hmake).
    apply Z.eqb_neq in Hb. rewrite Hb. cbn [negb fs log trace]. reflexivity.
  - reflexivity.
  - cbn [trace]. now rewrite <- app_assoc.
  - unfold download_whisper_cpp. cbv zeta. fold whisper_cpp.
    unfold bind at 1. unfold path_exists at 1. cbn [fs]. rewrite Hex2.
    reflexivity.
Qed.

Lemma download_failed_build_not_retried_witness :
  exists w1,
    download_whisper_cpp (Scenario.env_of Scenario.clone_only true)
                         (Example.world_with Scenario.trained_only) =
      Raise (Exn RuntimeError "Failed to build whisper.cpp") w1
    /\ download_whisper_cpp (Scenario.env_of Scenario.clone_only true) w1 =
         Ok whisper_cpp
            (with_log w1 [(INFO, "✅ whisper.cpp already exists")]).
Proof.
  edestruct (download_failed_build_not_retried
               (Scenario.env_of Scenario.clone_only true)
               (Example.world_with Scenario.trained_only))
    as (w1 & Hfirst & _ & _ & Hsecond).
  - reflexivity.
  - reflexivity.
  - reflexivity.
  - reflexivity.
  - discriminate.
  - reflexivity.
  - exists w1. split; [exact Hfirst | exact Hsecond].
Defined.

(* ================================================================== *)
(** * convert_hf_to_ggml: what escapes it *)


Lemma convert_raises_convert_failed
      (env : Env) (model_path output_path whisper_cpp_dir : Path)
      (w w' : World) (e : exn) :
  convert_hf_to_ggml env model_path output_path whisper_cpp_dir w = Raise e w' ->
  e = convert_failed.
Proof.
  rewrite convert_hf_to_ggml_wraps.
  destruct (convert_hf_to_ggml_body _ _ _ _ _); [discriminate|].
  now intros H; injection H as <- _.
Qed.

(* ================================================================== *)
(** * main: how the stages compose *)

Lemma mkdir_ok (w : World) (p : Path) (fs1 : FS) :
  Fs.mkdir (fs w) p = inr fs1 -> mkdir p w = Ok tt (after_mkdir w fs1).
Proof. intros H. unfold mkdir, fs_do. now rewrite H. Qed.

Lemma path_exists_ok (w : World) (p : Path) :
  path_exists p w = Ok (Fs.exists_ (fs w) p) w.
Proof. reflexivity. Qed.

(** The first two steps of [main], when the model path is there. *)
Ltac main_to_provisioning Hmk Hex :=
  unfold main; cbv zeta;
  rewrite (bind_ok _ _ _ _ _ (mkdir_ok _ _ _ Hmk));
  rewrite (bind_ok _ _ _ _ _ (path_exists_ok _ _));
  cbn [after_mkdir fs]; rewrite Hex; cbn [negb].

(** X4.  When provisioning raises, [main] attempts nothing further.  A
    [RuntimeError] (failed clone or build) is logged and [main] returns
    normally; any other exception -- such as the one [subprocess.run] raises
    when [git] cannot be started -- is not caught and leaves [main]. *)
Theorem main_provisioning_raises
        (env : Env) (args : Args) (w w2 : World) (fs1 : FS) (e : exn) :
  let model_path := PathLib.of_string (args_model_path args) in
  let output_dir := PathLib.of_string (args_output_dir args) in
  Fs.mkdir (fs w) output_dir = inr fs1 ->
  Fs.exists_ fs1 model_path = true ->
  download_whisper_cpp env (after_mkdir w fs1) = Raise e w2 ->
  main env args w =
    if is_RuntimeError e
    then Ok tt (with_log w2 [(ERROR, ("Failed to setup whisper.cpp: "
                                      ++ str_exn e)%string)])
    else Raise e w2.
Proof.
  intros model_path output_dir Hmk Hex Hdl. subst model_path output_dir.
  main_to_provisioning Hmk Hex.
  fold (after_mkdir w fs1).
  destruct (is_RuntimeError e) eqn:Hcls.
  - match goal with
    | |- bind ?m _ ?w0 = _ =>
        assert (Htry : m w0 =
                       Ok None (with_log w2 [(ERROR, ("Failed to setup whisper.cpp: "
                                                      ++ str_exn e)%string)]))
          by (rewrite (try_caught _ _ _ _ _ _ (bind_raise _ _ _ _ _ Hdl) Hcls);
              reflexivity)
    end.
    now rewrite (bind_ok _ _ _ _ _ Htry).
  - match goal with
    | |- bind ?m _ ?w0 = _ =>
        assert (Htry : m w0 = Raise e w2)
          by exact (try_uncaught _ _ _ _ _ _ (bind_raise _ _ _ _ _ Hdl) Hcls)
    end.
    now rewrite (bind_raise _ _ _ _ _ Htry).
Qed.

Lemma main_provisioning_raises_witness :
  main (Scenario.env_of Scenario.no_commands true) default_args
       (Example.world_with Scenario.trained_only) =
    Raise (Exn FileNotFoundError "[Errno 2] No such file or directory: 'git'")
          {| fs := (Scenario.trained_only ++ [(["output"; "quantized"], Dir)])%list;
             log := [(INFO, "📥 Downloading whisper.cpp...")];
             trace := [SubprocessRun git_clone (Some [])] |}.
Proof.
  exact (main_provisioning_raises
           (Scenario.env_of Scenario.no_commands true) default_args
           (Example.world_with Scenario.trained_only) _ _ _
           eq_refl eq_refl eq_refl).
Defined.

(** In the goal [bind m k w0 = _], replace the run of [m] by its outcome. *)
Ltac stage_returns a w' tac :=
  match goal with
  | |- bind ?m _ ?w0 = _ =>
      let H := fresh "Hstage" in
      assert (H : m w0 = Ok a w') by tac;
      rewrite (bind_ok _ _ _ _ _ H); clear H; cbv beta iota
  end.

(** From the start of [main] to the point where provisioning has returned
    the toolchain directory. *)
Ltac main_to_conversion Hmk Hex Hdl :=
  main_to_provisioning Hmk Hex;
  match type of Hdl with
  | _ = Ok ?d ?w2 =>
      stage_returns (Some d) w2
        ltac:(apply try_ok; rewrite (bind_ok _ _ _ _ _ Hdl); reflexivity)
  end.

(** X5.  When the conversion raises, [main] logs the error and returns
    normally; nothing is run afterwards, in particular no quantization. *)
Theorem main_conversion_raises
        (env : Env) (args : Args) (w w2 w3 : World) (fs1 : FS)
        (whisper_cpp_dir : Path) (e : exn) :
  let model_path := PathLib.of_string (args_model_path args) in
  let output_dir := PathLib.of_string (args_output_dir args) in
  Fs.mkdir (fs w) output_dir = inr fs1 ->
  Fs.exists_ fs1 model_path = true ->
  download_whisper_cpp env (after_mkdir w fs1) = Ok whisper_cpp_dir w2 ->
  convert_hf_to_ggml env model_path (output_dir // "whisper-atc.bin")
                     whisper_cpp_dir w2 = Raise e w3 ->
  main env args w =
    Ok tt (with_log w3 [(ERROR, "Failed to convert model: Failed to convert model to GGML format")]).
Proof.
  intros model_path output_dir Hmk Hex Hdl Hcv. subst model_path output_dir.
  pose proof (convert_raises_convert_failed _ _ _ _ _ _ _ Hcv) as ->.
  main_to_conversion Hmk Hex Hdl.
  stage_returns false
    (with_log w3 [(ERROR, "Failed to convert model: Failed to convert model to GGML format")])
    ltac:(rewrite (try_caught _ _ _ _ _ _ (bind_raise _ _ _ _ _ Hcv) eq_refl);
          reflexivity).
  reflexivity.
Qed.

Lemma main_conversion_raises_witness :
  exists w3,
    main (Example.env_with Example.whisper_config 1 "") default_args
         (Example.world_with Example.installed) =
      Ok tt (with_log w3 [(ERROR, "Failed to convert model: Failed to convert model to GGML format")])
    /\ filter is_SubprocessRun (trace w3) =
       [ SubprocessRun
           (converter_argv (Example.env_with Example.whisper_config 1 "")
                           Example.whisper_cpp_dir
                           (Example.quantized_dir // "whisper_compatible.pt")
                           Example.quantized_dir) None ].
Proof.
  eexists. split.
  - eapply (main_conversion_raises
             (Example.env_with Example.whisper_config 1 "") default_args
             (Example.world_with Example.installed)).
    + vm_compute. reflexivity.
    + vm_compute. reflexivity.
    + vm_compute. reflexivity.
    + vm_compute. reflexivity.
  - vm_compute. reflexivity.
Defined.

(** X6.  With [--skip_quantization], once the conversion has returned,
    [main] only writes its three closing records: the quantizer is not
    looked for and no further subprocess is started. *)
Theorem main_skips_quantization
        (env : Env) (args : Args) (w w2 w3 : World) (fs1 : FS)
        (whisper_cpp_dir : Path) :
  let model_path := PathLib.of_string (args_model_path args) in
  let output_dir := PathLib.of_string (args_output_dir args) in
  args_skip_quantization args = true ->
  Fs.mkdir (fs w) output_dir = inr fs1 ->
  Fs.exists_ fs1 model_path = true ->
  download_whisper_cpp env (after_mkdir w fs1) = Ok whisper_cpp_dir w2 ->
  convert_hf_to_ggml env model_path (output_dir // "whisper-atc.bin")
                     whisper_cpp_dir w2 = Ok tt w3 ->
  main env args w = Ok tt (with_log w3 (completion_logs output_dir)).
Proof.
  intros model_path output_dir Hskip Hmk Hex Hdl Hcv.
  subst model_path output_dir.
  main_to_conversion Hmk Hex Hdl.
  stage_returns true w3
    ltac:(apply try_ok; rewrite (bind_ok _ _ _ _ _ Hcv); reflexivity).
  rewrite Hskip. cbn [negb]. unfold_monad.
  unfold with_log, completion_logs. now rewrite <- !app_assoc.
Qed.

Lemma main_skips_quantization_witness :
  exists w3,
    main (Example.env_with Example.whisper_config 0 "") Scenario.skip_args
         (Example.world_with Example.installed) =
      Ok tt (with_log w3 (completion_logs Example.quantized_dir))
    /\ length (filter is_SubprocessRun (trace w3)) = 1%nat.
Proof.
  eexists. split.
  - eapply (main_skips_quantization
             (Example.env_with Example.whisper_config 0 "") Scenario.skip_args
             (Example.world_with Example.installed)).
    + reflexivity.
    + vm_compute. reflexivity.
    + vm_compute. reflexivity.
    + vm_compute. reflexivity.
    + vm_compute. reflexivity.
  - vm_compute. reflexivity.
Defined.

Lemma quantize_model_no_binary
      (env : Env) (ggml_path output_dir whisper_cpp_dir : Path) (w : World) :
  Fs.exists_ (fs w) (quantize_binary_of whisper_cpp_dir) = false ->
  quantize_model env ggml_path output_dir whisper_cpp_dir w =
    Raise (Exn RuntimeError
               ("Quantize binary not found: "
                ++ PathLib.str (quantize_binary_of whisper_cpp_dir)))
          w.
Proof.
  intros H. unfold quantize_model. unfold_monad. now rewrite H.
Qed.

(** X7.  A missing quantizer does not fail the run: once the conversion has
    returned, [main] logs that the quantize binary was not found, logs where
    the converted model is, writes its closing records and returns
    normally, with the filesystem and the trace as the conversion left
    them. *)
Theorem main_without_quantizer
        (env : Env) (args : Args) (w w2 w3 : World) (fs1 : FS)
        (whisper_cpp_dir : Path) :
  let model_path := PathLib.of_string (args_model_path args) in
  let output_dir := PathLib.of_string (args_output_dir args) in
  args_skip_quantization args = false ->
  Fs.mkdir (fs w) output_dir = inr fs1 ->
  Fs.exists_ fs1 model_path = true ->
  download_whisper_cpp env (after_mkdir w fs1) = Ok whisper_cpp_dir w2 ->
  convert_hf_to_ggml env model_path (output_dir // "whisper-atc.bin")
                     whisper_cpp_dir w2 = Ok tt w3 ->
  Fs.exists_ (fs w3) (quantize_binary_of whisper_cpp_dir) = false ->
  main env args w =
    Ok tt (with_log w3
             ([ (ERROR, ("Failed to quantize model: Quantize binary not found: "
                         ++ PathLib.str (quantize_binary_of whisper_cpp_dir))%string);
                (INFO, ("GGML model available at: "
                        ++ PathLib.str (output_dir // "whisper-atc.bin"))%string) ]
                ++ completion_logs output_dir)%list).
Proof.
  intros model_path output_dir Hskip Hmk Hex Hdl Hcv Hbin.
  subst model_path output_dir.
  main_to_conversion Hmk Hex Hdl.
  stage_returns true w3
    ltac:(apply try_ok; rewrite (bind_ok _ _ _ _ _ Hcv); reflexivity).
  rewrite Hskip. cbn [negb].
  rewrite (bind_ok
             _ _ _ _ _
             (try_caught _ _ _ _ _ _
                (bind_raise _ _ _ _ _
                   (quantize_model_no_binary env _ _ _ w3 Hbin))
                eq_refl)).
  unfold_monad. cbn [str_exn].
  unfold with_log, completion_logs. cbn [app]. now rewrite <- !app_assoc.
Qed.

Lemma main_without_quantizer_witness :
  exists w',
    main (Example.env_with Example.whisper_config 0 "") default_args
         (Example.world_with Scenario.without_quantizer) = Ok tt w'
    /\ Fs.exists_ (fs w') Example.ggml_path = true
    /\ length (filter is_SubprocessRun (trace w')) = 1%nat.
Proof.
  eexists. split.
  - eapply (main_without_quantizer
              (Example.env_with Example.whisper_config 0 "") default_args
              (Example.world_with Scenario.without_quantizer)).
    + reflexivity.
    + vm_compute. reflexivity.
    + vm_compute. reflexivity.
    + vm_compute. reflexivity.
    + vm_compute. reflexivity.
    + vm_compute. reflexivity.
  - vm_compute. split; reflexivity.
Defined.

(** X8.  [main] catches only [RuntimeError] around the quantization: any
    other exception [quantize_model] raises -- such as the
    [FileNotFoundError] of measuring an output the quantizer did not
    write -- leaves [main], and the closing records are not written. *)
Theorem main_quantization_exception_escapes
        (env : Env) (args : Args) (w w2 w3 w4 : World) (fs1 : FS)
        (whisper_cpp_dir : Path) (e : exn) :
  let model_path := PathLib.of_string (args_model_path args) in
  let output_dir := PathLib.of_string (args_output_dir args) in
  args_skip_quantization args = false ->
  Fs.mkdir (fs w) output_dir = inr fs1 ->
  Fs.exists_ fs1 model_path = true ->
  download_whisper_cpp env (after_mkdir w fs1) = Ok whisper_cpp_dir w2 ->
  convert_hf_to_ggml env model_path (output_dir // "whisper-atc.bin")
                     whisper_cpp_dir w2 = Ok tt w3 ->
  quantize_model env (output_dir // "whisper-atc.bin") output_dir
                 whisper_cpp_dir w3 = Raise e w4 ->
  is_RuntimeError e = false ->
  main env args w = Raise e w4.
Proof.
  intros model_path output_dir Hskip Hmk Hex Hdl Hcv Hq Hcls.
  subst model_path output_dir.
  main_to_conversion Hmk Hex Hdl.
  stage_returns true w3
    ltac:(apply try_ok; rewrite (bind_ok _ _ _ _ _ Hcv); reflexivity).
  rewrite Hskip. cbn [negb].
  now rewrite (bind_raise
                 _ _ _ _ _
                 (try_uncaught _ _ _ _ _ _ (bind_raise _ _ _ _ _ Hq) Hcls)).
Qed.

Lemma main_quantization_exception_escapes_witness :
  exists w4,
    main (Scenario.env_of (Scenario.silent_quantizer 0) true) default_args
         (Example.world_with Example.installed) =
      Raise (Exn FileNotFoundError
                 "[Errno 2] No such file or directory: 'output/quantized/whisper-atc-q8_0.bin'")
            w4
    /\ length (filter is_SubprocessRun (trace w4)) = 2%nat.
Proof.
  eexists. split.
  - eapply (main_quantization_exception_escapes
              (Scenario.env_of (Scenario.silent_quantizer 0) true) default_args
              (Example.world_with Example.installed)).
    + reflexivity.
    + vm_compute. reflexivity.
    + vm_compute. reflexivity.
    + vm_compute. reflexivity.
    + vm_compute. reflexivity.
    + vm_compute. reflexivity.
    + reflexivity.
  - vm_compute. reflexivity.
Defined.

(* ================================================================== *)
(** * quantize_model: every pattern of exit statuses *)

(** X9.  Whatever the three exit statuses are, as long as every level that
    exited with zero left its output file, [quantize_model] returns: the
    keys of the mapping are the levels that exited with zero, in the order
    q8_0, q5_0, q4_0, each with its path and measured size, and all three
    subprocesses are run.  Three failures give the empty mapping, not an
    exception. *)
Theorem quantize_model_levels
        (env : Env) (ggml_path output_dir whisper_cpp_dir : Path) (w : World)
        (r8 r5 r4 : CompletedProcess) (fs8 fs5 fs4 : FS) :
  let call := quantize_call ggml_path output_dir whisper_cpp_dir in
  Fs.exists_ (fs w) (quantize_binary_of whisper_cpp_dir) = true ->
  subprocess_run env (call "q8_0") None (fs w) = inr (r8, fs8) ->
  subprocess_run env (call "q5_0") None fs8 = inr (r5, fs5) ->
  subprocess_run env (call "q4_0") None fs5 = inr (r4, fs4) ->
  (failed r8 = false -> Fs.exists_ fs8 (quantized_path output_dir "q8_0") = true) ->
  (failed r5 = false -> Fs.exists_ fs5 (quantized_path output_dir "q5_0") = true) ->
  (failed r4 = false -> Fs.exists_ fs4 (quantized_path output_dir "q4_0") = true) ->
  exists (results : Results) (w' : World),
    quantize_model env ggml_path output_dir whisper_cpp_dir w = Ok results w'
    /\ dict_keys results =
       succeeded_levels [("q8_0", r8); ("q5_0", r5); ("q4_0", r4)]
    /\ level_outcome env output_dir results "q8_0" r8 fs8
    /\ level_outcome env output_dir results "q5_0" r5 fs5
    /\ level_outcome env output_dir results "q4_0" r4 fs4
    /\ fs w' = fs4
    /\ trace w' =
       (trace w ++ [ SubprocessRun (call "q8_0") None;
                     SubprocessRun (call "q5_0") None;
                     SubprocessRun (call "q4_0") None ])%list.
Proof.
  intros call Hbin H8 H5 H4 E8 E5 E4.
  unfold call, quantize_call, level_outcome, succeeded_levels in *.
  unfold failed in *. clear call.
  unfold quantize_model. unfold_monad. rewrite Hbin. cbn [negb].
  unfold quantizations. cbn [quantize_loop]. unfold_monad.
  rewrite (quantize_one_run env _ _ _ _ _ _ _ _ _ H8). cbv zeta.
  cbn [filter snd].
  destruct (returncode r8 =? 0) eqn:C8;
    destruct (returncode r5 =? 0) eqn:C5;
    destruct (returncode r4 =? 0) eqn:C4;
    cbn [negb] in E8, E5, E4;
    try (destruct (st_size_exists env _ _ (E8 eq_refl)) as [s8 S8]; rewrite S8);
    try (destruct (st_size_exists env _ _ (E5 eq_refl)) as [s5 S5]);
    try (destruct (st_size_exists env _ _ (E4 eq_refl)) as [s4 S4]);
    (erewrite quantize_one_run by (cbn [fs]; exact H5)); cbv zeta;
    rewrite C5; try rewrite S5;
    (erewrite quantize_one_run by (cbn [fs]; exact H4)); cbv zeta;
    rewrite C4; try rewrite S4;
    cbn [fs log trace];
    (do 2 eexists; split; [reflexivity|]);
    cbn [fs log trace negb map fst];
    repeat split; try (eexists; split; reflexivity);
    try reflexivity; rewrite <- !app_assoc; reflexivity.
Qed.

Lemma quantize_model_levels_witness :
  exists w',
    quantize_model (Scenario.env_of (Scenario.silent_quantizer 1) true)
                   Example.ggml_path Example.quantized_dir
                   Example.whisper_cpp_dir
                   (Example.world_with Example.installed) = Ok [] w'
    /\ length (trace w') = 3%nat.
Proof.
  edestruct (quantize_model_levels
               (Scenario.env_of (Scenario.silent_quantizer 1) true)
               Example.ggml_path Example.quantized_dir Example.whisper_cpp_dir
               (Example.world_with Example.installed))
    as (results & w' & Hrun & Hkeys & _ & _ & _ & _ & Htrace).
  - reflexivity.
  - reflexivity.
  - reflexivity.
  - reflexivity.
  - discriminate.
  - discriminate.
  - discriminate.
  - destruct results as [|entry results]; [|discriminate Hkeys].
    exists w'. split; [exact Hrun|]. now rewrite Htrace.
Defined.

(** X10.  When the first level's subprocess exits with zero but its output
    file is not there, [quantize_model] raises the [FileNotFoundError] of
    [stat] at once: the two remaining levels are never run and no mapping is
    returned. *)
Theorem quantize_model_missing_output
        (env : Env) (ggml_path output_dir whisper_cpp_dir : Path) (w : World)
        (r8 : CompletedProcess) (fs8 : FS) :
  let call := quantize_call ggml_path output_dir whisper_cpp_dir in
  Fs.exists_ (fs w) (quantize_binary_of whisper_cpp_dir) = true ->
  subprocess_run env (call "q8_0") None (fs w) = inr (r8, fs8) ->
  returncode r8 = 0 ->
  Fs.exists_ fs8 (quantized_path output_dir "q8_0") = false ->
  quantize_model env ggml_path output_dir whisper_cpp_dir w =
    Raise (Fs.ENOENT (quantized_path output_dir "q8_0"))
          {| fs := fs8;
             log := (log w ++
                       [(INFO, "🔧 Quantizing to q8_0 (Best quality quantized)...")])%list;
             trace := (trace w ++ [SubprocessRun (call "q8_0") None])%list |}.
Proof.
  intros call Hbin H8 Hcode Hmissing.
  unfold call, quantize_call in *. clear call.
  unfold quantize_model. unfold_monad. rewrite Hbin. cbn [negb].
  unfold quantizations. cbn [quantize_loop]. unfold_monad.
  rewrite (quantize_one_run env _ _ _ _ _ _ _ _ _ H8). cbv zeta.
  rewrite Hcode. cbn [Z.eqb].
  unfold st_size. unfold Fs.exists_ in Hmissing.
  destruct (Fs.lookup fs8 (quantized_path output_dir "q8_0"));
    [discriminate | reflexivity].
Qed.

Lemma quantize_model_missing_output_witness :
  exists w',
    quantize_model (Scenario.env_of (Scenario.silent_quantizer 0) true)
                   Example.ggml_path Example.quantized_dir
                   Example.whisper_cpp_dir
                   (Example.world_with Example.installed)
    = Raise (Exn FileNotFoundError
                 "[Errno 2] No such file or directory: 'output/quantized/whisper-atc-q8_0.bin'")
            w'
    /\ length (trace w') = 1%nat.
Proof.
  eexists. split.
  - eapply (quantize_model_missing_output
              (Scenario.env_of (Scenario.silent_quantizer 0) true)
              Example.ggml_path Example.quantized_dir Example.whisper_cpp_dir
              (Example.world_with Example.installed));
      vm_compute; reflexivity.
  - reflexivity.
Defined.

(* ================================================================== *)
(** * convert_hf_to_ggml: after the checkpoint is saved *)

(** From the start of the body to the point where the checkpoint is
    saved. *)
Ltac convert_to_script Htorch Htrans Hsetup Hsave :=
  rewrite convert_hf_to_ggml_wraps; unfold convert_hf_to_ggml_body;
  unfold bind at 1; unfold import at 1; rewrite Htorch; unfold ret at 1;
  unfold bind at 1; unfold import at 1; rewrite Htrans; unfold ret at 1;
  unfold bind at 1; rewrite Hsetup;
  unfold bind at 1; rewrite Hsave.

(** X11.  When the conversion script is not in the toolchain directory,
    [convert_hf_to_ggml] fails without starting any subprocess -- but only
    after the compatible checkpoint has been written, and it leaves that
    checkpoint on disk. *)
Theorem convert_without_script
        (env : Env) (model_path output_path whisper_cpp_dir : Path)
        (w w1 w2 : World) (saved : Path * Path) :
  let script := PathLib.str (convert_script_of whisper_cpp_dir) in
  import_module env "torch" = None ->
  import_module env "transformers" = None ->
  setup_whisper_assets env whisper_cpp_dir
                       (with_log w (converting_log model_path)) = Ok tt w1 ->
  save_compatible_checkpoint env model_path output_path w1 = Ok saved w2 ->
  Fs.exists_ (fs w2) (convert_script_of whisper_cpp_dir) = false ->
  convert_hf_to_ggml env model_path output_path whisper_cpp_dir w =
    Raise convert_failed
          (with_log w2
             [ (ERROR, ("Conversion script not found: " ++ script)%string);
               (ERROR, ("Failed to convert model: Conversion script not found: "
                        ++ script)%string) ])
  /\ exists checkpoint,
      Fs.lookup (fs w2) (compatible_pt_of output_path)
      = Some (File (Pickle checkpoint)).
Proof.
  intros script Htorch Htrans Hsetup Hsave Hscript. subst script. split.
  - convert_to_script Htorch Htrans Hsetup Hsave.
    destruct saved as [compatible_pt output_dir].
    unfold bind at 1. unfold run_convert_script. cbv zeta.
    unfold bind at 1. unfold path_exists at 1. rewrite Hscript. cbn [negb].
    unfold_monad. unfold with_log, convert_error_log. cbn [fs log trace str_exn].
    now rewrite <- !app_assoc.
  - apply save_compatible_checkpoint_ok in Hsave
      as (m & d & fs1 & _ & _ & _ & Hw & _).
    eexists. exact (write_lookup _ _ _ _ Hw).
Qed.

Lemma convert_without_script_witness :
  exists w2,
    convert_hf_to_ggml (Example.env_with Example.whisper_config 0 "")
                       Example.model_path Example.ggml_path
                       Example.whisper_cpp_dir
                       (Example.world_with Scenario.trained_only)
    = Raise convert_failed
            (with_log w2
               [ (ERROR, "Conversion script not found: whisper.cpp/models/convert-pt-to-ggml.py");
                 (ERROR, "Failed to convert model: Conversion script not found: whisper.cpp/models/convert-pt-to-ggml.py") ])
    /\ trace w2 <> [].
Proof.
  eexists. split.
  - eapply (convert_without_script
              (Example.env_with Example.whisper_config 0 "")
              Example.model_path Example.ggml_path Example.whisper_cpp_dir
              (Example.world_with Scenario.trained_only)).
    + reflexivity.
    + reflexivity.
    + vm_compute. reflexivity.
    + vm_compute. reflexivity.
    + vm_compute. reflexivity.
  - discriminate.
Defined.

(** X12.  When the conversion script exits with zero but the output
    directory then holds no entry that passes the test of line 204,
    [convert_hf_to_ggml] fails; it has renamed and deleted nothing: the
    filesystem is the one the script left, intermediate checkpoint
    included. *)
Theorem convert_without_candidate
        (env : Env) (model_path output_path whisper_cpp_dir : Path)
        (w w1 w2 : World) (saved : Path * Path)
        (result : CompletedProcess) (after : FS) (entries : list Path) :
  let argv := converter_argv env whisper_cpp_dir (fst saved) (snd saved) in
  import_module env "torch" = None ->
  import_module env "transformers" = None ->
  setup_whisper_assets env whisper_cpp_dir
                       (with_log w (converting_log model_path)) = Ok tt w1 ->
  save_compatible_checkpoint env model_path output_path w1 = Ok saved w2 ->
  Fs.exists_ (fs w2) (convert_script_of whisper_cpp_dir) = true ->
  subprocess_run env argv None (fs w2) = inr (result, after) ->
  returncode result = 0 ->
  Fs.iterdir after (PathLib.parent output_path) = inr entries ->
  filter is_ggml_file entries = [] ->
  exists w',
    convert_hf_to_ggml env model_path output_path whisper_cpp_dir w =
      Raise convert_failed w'
    /\ fs w' = after
    /\ trace w' = (trace w2 ++ [SubprocessRun argv None])%list
    /\ In (ERROR, ("Failed to convert model: No GGML output file found in "
                   ++ PathLib.str (PathLib.parent output_path))%string)
          (log w').
Proof.
  intros argv Htorch Htrans Hsetup Hsave Hscript Hrun Hcode Hdir Hnone.
  pose proof (save_compatible_checkpoint_ok _ _ _ _ _ _ Hsave)
    as (m & d & fs1 & _ & _ & _ & _ & Hsaved & _).
  subst saved. cbn [fst snd] in argv.
  convert_to_script Htorch Htrans Hsetup Hsave.
  unfold bind at 1. unfold run_convert_script. cbv zeta.
  unfold bind at 1. unfold path_exists at 1. rewrite Hscript. cbn [negb].
  unfold bind at 1. unfold logger_info at 1, logger at 1.
  unfold bind at 1. unfold logger_info at 1, logger at 1.
  unfold bind at 1. fold argv.
  erewrite run_ok by (cbn [fs]; exact Hrun).
  rewrite Hcode. cbn [Z.eqb negb]. unfold ret at 1.
  unfold bind at 1.
  erewrite collect_ggml_output_steps by (cbn [fs]; exact Hdir).
  cbv zeta. rewrite Hnone.
  eexists. split; [reflexivity|].
  cbn [with_log fs log trace convert_error_log str_exn].
  repeat split. apply in_or_app. right. now left.
Qed.

Lemma convert_without_candidate_witness :
  exists w',
    convert_hf_to_ggml (Scenario.env_of Scenario.idle true)
                       Example.model_path Example.ggml_path
                       Example.whisper_cpp_dir
                       (Example.world_with Example.installed)
    = Raise convert_failed w'
    /\ Fs.exists_ (fs w') (Example.quantized_dir // "whisper_compatible.pt")
       = true.
Proof.
  edestruct (convert_without_candidate
               (Scenario.env_of Scenario.idle true)
               Example.model_path Example.ggml_path Example.whisper_cpp_dir
               (Example.world_with Example.installed))
    as (w' & Hrun & Hfs & _).
  - reflexivity.
  - reflexivity.
  - vm_compute. reflexivity.
  - vm_compute. reflexivity.
  - vm_compute. reflexivity.
  - vm_compute. reflexivity.
  - reflexivity.
  - vm_compute. reflexivity.
  - reflexivity.
  - exists w'. split; [exact Hrun|]. rewrite Hfs. reflexivity.
Defined.

(* ================================================================== *)
(** * convert_hf_to_ggml: what a successful run leaves *)

Lemma bind_ok_inv {A B} (m : M A) (k : A -> M B) (w w' : World) (b : B) :
  bind m k w = Ok b w' -> exists a w1, m w = Ok a w1 /\ k a w1 = Ok b w'.
Proof.
  unfold bind. destruct (m w) as [a w1|e w1]; [|discriminate].
  intros H. now exists a, w1.
Qed.

Lemma fs_do_ok_inv (op : FS -> exn + FS) (w w' : World) (u : unit) :
  fs_do op w = Ok u w' -> op (fs w) = inr (fs w').
Proof.
  unfold fs_do. destruct (op (fs w)); [discriminate|].
  intros H. now injection H as _ <-.
Qed.

Lemma logger_fs (l : Level) (msg : string) (w w' : World) (u : unit) :
  logger l msg w = Ok u w' -> fs w' = fs w.
Proof. unfold logger. intros H. now injection H as _ <-. Qed.

Lemma import_ok_inv (env : Env) (name : string) (w w' : World) (u : unit) :
  import env name w = Ok u w' -> w' = w.
Proof.
  unfold import. destruct (import_module env name); [discriminate|].
  unfold ret. intros H. now injection H.
Qed.

Lemma lookup_remove_same (fs : FS) (p : Path) :
  p <> [] -> Fs.lookup (Fs.remove fs p) p = None.
Proof. destruct p; [congruence|]. intros _. apply find_remove_same. Qed.

Lemma lookup_remove_other (fs : FS) (p q : Path) :
  q <> p -> Fs.lookup (Fs.remove fs p) q = Fs.lookup fs q.
Proof. destruct q; [reflexivity|]. apply find_remove_other. Qed.

Lemma find_in (fs : FS) (p : Path) (n : node) :
  In (p, n) fs -> exists n', Fs.find fs p = Some n'.
Proof.
  induction fs as [|[q m] fs IH]; [intros []|].
  intros [H | H]; cbn [Fs.find].
  - injection H as -> ->. rewrite path_eqb_refl. now exists n.
  - destruct (PathLib.eqb q p); [now exists m | now apply IH].
Qed.

(** What [iterdir] yields is there. *)
Lemma children_exist (fs : FS) (d p : Path) :
  In p (Fs.children fs d) -> Fs.exists_ fs p = true.
Proof.
  unfold Fs.children. intros H. apply in_map_iff in H as [[q n] [<- H]].
  apply filter_In in H as [Hin _]. cbn [fst].
  unfold Fs.exists_, Fs.lookup. destruct q as [|c q]; [reflexivity|].
  destruct (find_in _ _ _ Hin) as [n' ->]. reflexivity.
Qed.

(** When the discovery returns, the output path exists. *)
Lemma collect_ggml_output_ok (output_dir output_path : Path) (w w' : World)
      (u : unit) :
  collect_ggml_output output_dir output_path w = Ok u w' ->
  Fs.exists_ (fs w') output_path = true.
Proof.
  destruct (Fs.iterdir (fs w) output_dir) as [e|entries] eqn:Hdir.
  - unfold collect_ggml_output. unfold_monad. rewrite Hdir. discriminate.
  - rewrite (collect_ggml_output_steps _ _ _ _ Hdir). cbv zeta.
    assert (Hentries : entries = Fs.children (fs w) output_dir).
    { unfold Fs.iterdir in Hdir.
      destruct (Fs.lookup (fs w) output_dir) as [[|?]|]; try discriminate.
      now injection Hdir. }
    destruct (filter is_ggml_file entries) as [|first rest] eqn:Hf;
      [discriminate|].
    assert (Hfirst : Fs.exists_ (fs w) first = true).
    { apply (children_exist _ output_dir). rewrite <- Hentries.
      assert (H : In first (filter is_ggml_file entries))
        by (rewrite Hf; now left).
      now apply filter_In in H. }
    destruct (PathLib.eqb first output_path) eqn:E.
    + apply path_eqb_eq in E. subst first.
      intros H. injection H as _ <-. exact Hfirst.
    + apply path_eqb_neq in E.
      destruct (Fs.rename (fs w) first output_path) as [e|fs'] eqn:Hmv;
        [discriminate|].
      intros H. injection H as _ <-. cbn [fs].
      destruct (rename_moves _ _ _ _ Hmv E) as [Hto _].
      unfold Fs.exists_ in *. now rewrite Hto.
Qed.

(** X13.  Whenever [convert_hf_to_ggml] returns normally, the intermediate
    checkpoint [whisper_compatible.pt] is no longer on disk, and the
    converted model exists at the output path (for an output path that is
    not itself named [whisper_compatible.pt]). *)
Theorem convert_returns_with_output
        (env : Env) (model_path output_path whisper_cpp_dir : Path)
        (w w' : World) :
  convert_hf_to_ggml env model_path output_path whisper_cpp_dir w = Ok tt w' ->
  Fs.exists_ (fs w') (compatible_pt_of output_path) = false
  /\ (PathLib.name output_path <> "whisper_compatible.pt" ->
      Fs.exists_ (fs w') output_path = true).
Proof.
  rewrite convert_hf_to_ggml_wraps.
  destruct (convert_hf_to_ggml_body _ _ _ _ _) as [u w0|] eqn:Hbody;
    [|discriminate].
  intros H. injection H as _ ->.
  unfold convert_hf_to_ggml_body in Hbody.
  apply bind_ok_inv in Hbody as (? & ? & _ & Hbody).
  apply bind_ok_inv in Hbody as (? & ? & _ & Hbody).
  apply bind_ok_inv in Hbody as (? & ? & _ & Hbody).
  apply bind_ok_inv in Hbody as (saved & w2 & Hsave & Hbody).
  apply save_compatible_checkpoint_ok in Hsave
    as (m & d & fs1 & _ & _ & _ & _ & -> & _).
  apply bind_ok_inv in Hbody as (? & w3 & _ & Hbody).
  apply bind_ok_inv in Hbody as (? & w4 & Hcollect & Hbody).
  apply bind_ok_inv in Hbody as (? & w5 & Hunlink & Hbody).
  apply bind_ok_inv in Hbody as (? & w6 & Hlog1 & Hlog2).
  apply logger_fs in Hlog1, Hlog2. rewrite Hlog2, Hlog1.
  apply fs_do_ok_inv in Hunlink. apply collect_ggml_output_ok in Hcollect.
  unfold Fs.unlink in Hunlink.
  destruct (Fs.lookup (fs w4) (compatible_pt_of output_path)) as [[|c]|];
    try discriminate.
  injection Hunlink as <-. unfold Fs.exists_ in *. split.
  - now rewrite lookup_remove_same by apply div_not_nil.
  - intros Hname. rewrite lookup_remove_other; [exact Hcollect|].
    intros E. apply Hname. rewrite E. apply name_div.
Qed.

Lemma convert_returns_with_output_witness :
  let w' := world_of (convert_hf_to_ggml
                        (Example.env_with Example.whisper_config 0 "")
                        Example.model_path Example.ggml_path
                        Example.whisper_cpp_dir
                        (Example.world_with Example.installed)) in
  Fs.exists_ (fs w') (Example.quantized_dir // "whisper_compatible.pt") = false
  /\ Fs.exists_ (fs w') Example.ggml_path = true.
Proof.
  intros w'.
  destruct (convert_returns_with_output
              (Example.env_with Example.whisper_config 0 "")
              Example.model_path Example.ggml_path Example.whisper_cpp_dir
              (Example.world_with Example.installed) w') as [Hgone Hthere].
  - vm_compute. reflexivity.
  - split; [exact Hgone|]. apply Hthere. discriminate.
Defined.

(* ================================================================== *)
(** * setup_whisper_assets: what it provides *)

Section Provides.

Variable p : Path.

Lemma keeps_ret {A} (a : A) : keeps p (ret a).
Proof. intros w H. exact H. Qed.

Lemma keeps_raise {A} (e : exn) : keeps p (@raise A e).
Proof. intros w H. exact H. Qed.

Lemma keeps_logger (l : Level) (msg : string) : keeps p (logger l msg).
Proof. intros w H. exact H. Qed.

Lemma keeps_emit (ev : Event) : keeps p (emit ev).
Proof. intros w H. exact H. Qed.

Lemma keeps_path_exists (q : Path) : keeps p (path_exists q).
Proof. intros w H. exact H. Qed.

Lemma keeps_import (env : Env) (name : string) : keeps p (import env name).
Proof.
  unfold import. destruct (import_module env name);
    [apply keeps_raise | apply keeps_ret].
Qed.

Lemma keeps_bind {A B} (m : M A) (k : A -> M B) :
  keeps p m -> (forall a, keeps p (k a)) -> keeps p (bind m k).
Proof.
  intros Hm Hk w H. unfold bind. specialize (Hm w H).
  destruct (m w) as [a w1|e w1]; cbn [world_of] in *; [|exact Hm].
  now apply Hk.
Qed.

Lemma keeps_try {A} (m : M A) (catches : exn -> bool) (handler : exn -> M A) :
  keeps p m -> (forall e, keeps p (handler e)) ->
  keeps p (try_except m catches handler).
Proof.
  intros Hm Hh w H. unfold try_except. specialize (Hm w H).
  destruct (m w) as [a w1|e w1]; cbn [world_of] in *; [exact Hm|].
  destruct (catches e); [now apply Hh | exact Hm].
Qed.

Lemma keeps_fs_do (op : FS -> exn + FS) :
  (forall fs fs', op fs = inr fs' -> Fs.exists_ fs p = true ->
                  Fs.exists_ fs' p = true) ->
  keeps p (fs_do op).
Proof.
  intros Hop w H. unfold fs_do.
  destruct (op (fs w)) as [e|fs'] eqn:E; cbn [world_of fs]; [exact H|].
  now apply (Hop (fs w)).
Qed.

Lemma keeps_mkdir (q : Path) : keeps p (mkdir q).
Proof.
  apply keeps_fs_do. intros fs fs' Hmk. unfold Fs.exists_.
  destruct (Fs.lookup fs p) as [n|] eqn:E; [|discriminate].
  now rewrite (mkdir_keeps _ _ _ _ _ Hmk E).
Qed.

Lemma keeps_write_file (q : Path) (c : content) : keeps p (write_file q c).
Proof.
  apply keeps_fs_do. intros fs fs' Hw. unfold Fs.exists_.
  destruct (PathLib.eqb p q) eqn:E.
  - apply path_eqb_eq in E. subst q. now rewrite (write_lookup _ _ _ _ Hw).
  - apply path_eqb_neq in E. now rewrite (write_frame _ _ _ _ _ Hw E).
Qed.

Lemma keeps_url_retrieve (env : Env) (url : string) (q : Path) :
  keeps p (url_retrieve env url q).
Proof.
  unfold url_retrieve. apply keeps_bind; [apply keeps_emit|]. intros _.
  destruct (urlretrieve env url); [apply keeps_raise | apply keeps_write_file].
Qed.

Lemma creates_write_file (c : content) : creates p (write_file p c).
Proof.
  intros w a w' H. unfold write_file in H. apply fs_do_ok_inv in H.
  unfold Fs.exists_. now rewrite (write_lookup _ _ _ _ H).
Qed.

Lemma creates_bind_first {A B} (m : M A) (k : A -> M B) :
  creates p m -> (forall a, keeps p (k a)) -> creates p (bind m k).
Proof.
  intros Hm Hk w b w' H. apply bind_ok_inv in H as (a & w1 & H1 & H2).
  specialize (Hk a w1 (Hm _ _ _ H1)). now rewrite H2 in Hk.
Qed.

Lemma creates_bind_second {A B} (m : M A) (k : A -> M B) :
  (forall a, creates p (k a)) -> creates p (bind m k).
Proof.
  intros Hk w b w' H. apply bind_ok_inv in H as (a & w1 & _ & H2).
  now apply (Hk a w1 b).
Qed.

Lemma creates_try {A} (m : M A) (catches : exn -> bool) (handler : exn -> M A) :
  creates p m -> (forall e, creates p (handler e)) ->
  creates p (try_except m catches handler).
Proof.
  intros Hm Hh w a w' H. unfold try_except in H.
  destruct (m w) as [a1 w1|e w1] eqn:E.
  - injection H as <- <-. now apply (Hm w a1).
  - destruct (catches e); [|discriminate]. now apply (Hh e w1 a).
Qed.

Lemma creates_url_retrieve (env : Env) (url : string) :
  creates p (url_retrieve env url p).
Proof.
  unfold url_retrieve. apply creates_bind_second. intros _.
  destruct (urlretrieve env url); [intros w a w' H; discriminate|].
  apply creates_write_file.
Qed.

(** [if not p.exists(): m], followed by [k]. *)
Lemma creates_unless_present {B} (m : M unit) (k : unit -> M B) :
  creates p m -> (forall a, keeps p (k a)) ->
  creates p (bind (path_exists p)
                  (fun present =>
                     bind (if negb present then m else ret tt) k)).
Proof.
  intros Hm Hk w b w' H. unfold bind at 1, path_exists at 1 in H.
  destruct (Fs.exists_ (fs w) p) eqn:E; cbn [negb] in H.
  - unfold bind, ret in H. specialize (Hk tt w E). now rewrite H in Hk.
  - now apply (creates_bind_first m k Hm Hk w b).
Qed.

Lemma creates_unless_present_last (m : M unit) :
  creates p m ->
  creates p (bind (path_exists p)
                  (fun present => if negb present then m else ret tt)).
Proof.
  intros Hm w b w' H. unfold bind at 1, path_exists at 1 in H.
  destruct (Fs.exists_ (fs w) p) eqn:E; cbn [negb] in H.
  - unfold ret in H. now injection H as _ <-.
  - now apply (Hm w b).
Qed.

End Provides.

Ltac keeps_all :=
  repeat first
         [ apply keeps_bind; [|intros ?]
         | apply keeps_try; [|intros ?]
         | apply keeps_ret
         | apply keeps_raise
         | apply keeps_logger
         | apply keeps_path_exists
         | apply keeps_import
         | apply keeps_emit
         | apply keeps_mkdir
         | apply keeps_write_file
         | apply keeps_url_retrieve
         | match goal with
           | |- keeps _ (if ?b then _ else _) => destruct b
           | |- keeps _ (match ?o with Some _ => _ | None => _ end) =>
               destruct o
           end ].

Ltac creates_all :=
  repeat first
         [ apply creates_write_file
         | apply creates_url_retrieve
         | apply creates_unless_present_last
         | apply creates_unless_present; [|intros ?; solve [keeps_all]]
         | match goal with
           | |- creates _ (bind (write_file _ _) _) =>
               apply creates_bind_first; [|intros ?; solve [keeps_all]]
           | |- creates _ (bind (url_retrieve _ _ _) _) =>
               apply creates_bind_first; [|intros ?; solve [keeps_all]]
           | |- creates _ (bind _ _) => apply creates_bind_second; intros ?
           | |- creates _ (try_except _ _ _) => apply creates_try; [|intros ?]
           | |- creates _ (match ?o with Some _ => _ | None => _ end) =>
               destruct o; [intros ? ? ? ?; discriminate|]
           end ].

(** Past the test of line 79, [setup_whisper_assets] provides both asset
    files. *)
Lemma setup_whisper_assets_creates
      (env : Env) (whisper_cpp_dir : Path) (w w' : World) (u : unit) :
  setup_whisper_assets env whisper_cpp_dir w = Ok u w' ->
  Fs.exists_ (fs w') (mel_filters_file_of whisper_cpp_dir) = true
  /\ Fs.exists_ (fs w') (vocab_file_of whisper_cpp_dir) = true.
Proof.
  unfold mel_filters_file_of, vocab_file_of, gpt2_dir_of, assets_dir_of.
  unfold setup_whisper_assets. cbv zeta.
  unfold bind at 1, path_exists at 1. unfold bind at 1, path_exists at 1.
  destruct (Fs.exists_ (fs w) (_ // "mel_filters.npz")) eqn:Emel;
    destruct (Fs.exists_ (fs w) (_ // "vocab.json")) eqn:Evoc;
    cbn [andb];
    try (intros H; apply logger_fs in H; rewrite H; now split);
    intros H;
    (split;
     [ refine ((_ : creates (whisper_cpp_dir // "whisper" // "assets"
                             // "mel_filters.npz") _) w u w' H)
     | refine ((_ : creates (whisper_cpp_dir // "whisper" // "assets"
                             // "gpt2" // "vocab.json") _) w u w' H) ]);
    creates_all.
Qed.

(** X14.  Whenever [setup_whisper_assets] returns normally, both
    [mel_filters.npz] and [gpt2/vocab.json] exist under the toolchain's
    assets directory -- downloaded, taken from the tokenizer, or written as
    placeholders. *)
Theorem setup_whisper_assets_provides
        (env : Env) (whisper_cpp_dir : Path) (w w' : World) :
  setup_whisper_assets env whisper_cpp_dir w = Ok tt w' ->
  Fs.exists_ (fs w')
             (whisper_cpp_dir // "whisper" // "assets" // "mel_filters.npz")
  = true
  /\ Fs.exists_ (fs w')
                (whisper_cpp_dir // "whisper" // "assets" // "gpt2"
                 // "vocab.json")
     = true.
Proof. apply setup_whisper_assets_creates. Qed.

Lemma setup_whisper_assets_provides_witness :
  let w' := world_of (setup_whisper_assets
                        (Scenario.env_of Scenario.idle false)
                        Example.whisper_cpp_dir
                        (Example.world_with Example.installed)) in
  Fs.lookup (fs w') (mel_filters_file_of Example.whisper_cpp_dir)
  = Some (File RandomMelFilters)
  /\ Fs.exists_ (fs w') (vocab_file_of Example.whisper_cpp_dir) = true.
Proof.
  intros w'. split; [reflexivity|].
  exact (proj2 (setup_whisper_assets_provides
                  (Scenario.env_of Scenario.idle false)
                  Example.whisper_cpp_dir
                  (Example.world_with Example.installed) w' eq_refl)).
Defined.

(** X15.  [setup_whisper_assets] is idempotent: run again on the world a
    successful run left, it finds both files, logs that the assets already
    exist and does nothing else -- no download, no directory or file
    written. *)
Theorem setup_whisper_assets_idempotent
        (env : Env) (whisper_cpp_dir : Path) (w w' : World) :
  setup_whisper_assets env whisper_cpp_dir w = Ok tt w' ->
  setup_whisper_assets env whisper_cpp_dir w' =
    Ok tt (with_log w' [(INFO, "✅ Whisper assets already exist")]).
Proof.
  intros H. apply setup_whisper_assets_creates in H as [Hmel Hvoc].
  unfold mel_filters_file_of, vocab_file_of, gpt2_dir_of, assets_dir_of in *.
  unfold setup_whisper_assets. cbv zeta.
  unfold bind at 1, path_exists at 1. unfold bind at 1, path_exists at 1.
  now rewrite Hmel, Hvoc.
Qed.

Lemma setup_whisper_assets_idempotent_witness :
  let env := Scenario.env_of Scenario.idle true in
  let w' := world_of (setup_whisper_assets env Example.whisper_cpp_dir
                        (Example.world_with Example.installed)) in
  setup_whisper_assets env Example.whisper_cpp_dir w' =
    Ok tt (with_log w' [(INFO, "✅ Whisper assets already exist")]).
Proof.
  intros env w'.
  exact (setup_whisper_assets_idempotent
           env Example.whisper_cpp_dir
           (Example.world_with Example.installed) w' eq_refl).
Defined.

Lemma write_ok (fs : FS) (p : Path) (c : content) :
  p <> [] ->
  Fs.lookup fs (PathLib.parent p) = Some Dir ->
  Fs.is_dir fs p = false ->
  Fs.write fs p c = inr (Fs.set fs p (File c)).
Proof.
  intros Hp Hparent Hdir. unfold Fs.write. destruct p as [|a p]; [congruence|].
  rewrite Hparent. unfold Fs.is_dir in Hdir.
  now destruct (Fs.lookup fs (a :: p)) as [[|?]|].
Qed.

(** X16.  Without a network [setup_whisper_assets] falls back to
    placeholders.  Let the assets directories be created, both files be
    missing, both downloads raise and the tokenizer be unobtainable (the
    import of transformers or the tokenizer itself raises); let the three
    imports of lines 87, 88 and 98 and the two placeholder writes succeed.
    Then every failure is logged, none escapes, and the function returns
    with random mel filters in [mel_filters.npz] and the 51864 placeholder
    tokens in [vocab.json]. *)
Theorem setup_whisper_assets_offline
        (env : Env) (whisper_cpp_dir : Path) (w : World)
        (fs1 fs2 fs3 fs4 : FS) (e_mel e_tokenizer e_vocab : exn) :
  let assets_dir := whisper_cpp_dir // "whisper" // "assets" in
  let gpt2_dir := assets_dir // "gpt2" in
  let mel_filters_file := assets_dir // "mel_filters.npz" in
  let vocab_file := gpt2_dir // "vocab.json" in
  Fs.mkdir (fs w) assets_dir = inr fs1 ->
  Fs.mkdir fs1 gpt2_dir = inr fs2 ->
  Fs.exists_ fs2 mel_filters_file = false ->
  Fs.exists_ fs2 vocab_file = false ->
  import_module env "urllib.request" = None ->
  import_module env "json" = None ->
  import_module env "numpy" = None ->
  urlretrieve env mel_filters_url = Some e_mel ->
  import_module env "transformers" = Some e_tokenizer
  \/ (import_module env "transformers" = None
      /\ tokenizer_get_vocab env "openai/whisper-small" = Some e_tokenizer) ->
  urlretrieve env vocab_url = Some e_vocab ->
  Fs.write fs2 mel_filters_file RandomMelFilters = inr fs3 ->
  Fs.write fs3 vocab_file MinimalVocab = inr fs4 ->
  exists w',
    setup_whisper_assets env whisper_cpp_dir w = Ok tt w'
    /\ fs w' = fs4
    /\ log w' =
       (log w ++
          [ (INFO, "📥 Setting up whisper assets...");
            (ERROR, ("Failed to download mel_filters.npz: "
                     ++ str_exn e_mel)%string);
            (INFO, "✅ Created minimal mel_filters.npz");
            (ERROR, ("Failed to create vocab.json: "
                     ++ str_exn e_tokenizer)%string);
            (ERROR, ("Failed to download vocab.json: "
                     ++ str_exn e_vocab)%string);
            (INFO, "✅ Created minimal vocab.json") ])%list
    /\ Fs.lookup fs4 mel_filters_file = Some (File RandomMelFilters)
    /\ Fs.lookup fs4 vocab_file = Some (File MinimalVocab).
Proof.
  intros assets_dir gpt2_dir mel_filters_file vocab_file
         Hmk1 Hmk2 Hmel Hvoc Hurllib Hjson Hnumpy Hdl1 Htok Hdl2 Hw1 Hw2.
  assert (Hne : mel_filters_file <> vocab_file)
    by (intros E; apply div_inj in E as [_ E]; discriminate).
  assert (Hvoc3 : Fs.exists_ fs3 vocab_file = false).
  { unfold Fs.exists_ in *.
    rewrite (write_frame _ _ _ vocab_file _ Hw1); [exact Hvoc|].
    intros E. now apply Hne. }
  assert (Hboth : Fs.exists_ (fs w) mel_filters_file
                  && Fs.exists_ (fs w) vocab_file = false).
  { destruct (Fs.exists_ (fs w) mel_filters_file) eqn:E; [|reflexivity].
    exfalso. unfold Fs.exists_ in E, Hmel.
    destruct (Fs.lookup (fs w) mel_filters_file) as [n|] eqn:En;
      [|discriminate].
    pose proof (mkdir_keeps _ _ _ _ _ Hmk1 En) as E1.
    pose proof (mkdir_keeps _ _ _ _ _ Hmk2 E1) as E2.
    now rewrite E2 in Hmel. }
  assert (Hmel4 : Fs.lookup fs4 mel_filters_file = Some (File RandomMelFilters)).
  { rewrite (write_frame _ _ _ mel_filters_file _ Hw2 Hne).
    exact (write_lookup _ _ _ _ Hw1). }
  pose proof (write_lookup _ _ _ _ Hw2) as Hvoc4.
  assert (Hrun :
            exists tr,
              setup_whisper_assets env whisper_cpp_dir w =
                Ok tt
                   {| fs := fs4;
                      log :=
                        (log w ++
                           [ (INFO, "📥 Setting up whisper assets...");
                             (ERROR, ("Failed to download mel_filters.npz: "
                                      ++ str_exn e_mel)%string);
                             (INFO, "✅ Created minimal mel_filters.npz");
                             (ERROR, ("Failed to create vocab.json: "
                                      ++ str_exn e_tokenizer)%string);
                             (ERROR, ("Failed to download vocab.json: "
                                      ++ str_exn e_vocab)%string);
                             (INFO, "✅ Created minimal vocab.json") ])%list;
                      trace := tr |}).
  { unfold setup_whisper_assets. cbv zeta.
    fold assets_dir. fold mel_filters_file. fold gpt2_dir. fold vocab_file.
    unfold_monad. rewrite Hboth. rewrite Hmk1. unfold_monad.
    rewrite Hmk2. unfold_monad. rewrite Hurllib, Hjson. unfold_monad.
    rewrite Hmel. cbn [negb]. rewrite Hdl1. unfold_monad.
    unfold except_Exception. rewrite Hnumpy. unfold_monad.
    rewrite Hw1. unfold_monad. rewrite Hvoc3. cbn [negb].
    destruct Htok as [Htok | [Himp Htok]].
    - rewrite Htok. unfold_monad. rewrite Hdl2. unfold_monad.
      rewrite Hw2. unfold_monad. rewrite <- !app_assoc. cbn [app].
      eexists. reflexivity.
    - rewrite Himp. unfold_monad. rewrite Htok. unfold_monad.
      rewrite Hdl2. unfold_monad. rewrite Hw2. unfold_monad.
      rewrite <- !app_assoc. cbn [app]. eexists. reflexivity. }
  destruct Hrun as [tr Hrun]. eexists. split; [exact Hrun|].
  cbn [fs log]. repeat split; assumption.
Qed.

Lemma setup_whisper_assets_offline_witness :
  exists w',
    setup_whisper_assets (Scenario.env_of Scenario.idle false)
                         Example.whisper_cpp_dir
                         (Example.world_with Example.installed) = Ok tt w'
    /\ Fs.lookup (fs w') (mel_filters_file_of Example.whisper_cpp_dir)
       = Some (File RandomMelFilters)
    /\ Fs.lookup (fs w') (vocab_file_of Example.whisper_cpp_dir)
       = Some (File MinimalVocab).
Proof.
  edestruct (setup_whisper_assets_offline
               (Scenario.env_of Scenario.idle false) Example.whisper_cpp_dir
               (Example.world_with Example.installed))
    as (w' & Hrun & Hfs & _ & Hmel & Hvoc).
  - vm_compute. reflexivity.
  - vm_compute. reflexivity.
  - reflexivity.
  - reflexivity.
  - reflexivity.
  - reflexivity.
  - reflexivity.
  - reflexivity.
  - right. split; reflexivity.
  - reflexivity.
  - vm_compute. reflexivity.
  - vm_compute. reflexivity.
  - exists w'. split; [exact Hrun|]. rewrite Hfs. split; [exact Hmel | exact Hvoc].
Defined.

(* ================================================================== *)
(** * convert_safetensors_to_pytorch *)


(** X18.  [convert_safetensors_to_pytorch] converts once: after a call that
    loaded the safetensors model and saved it, leaving [pytorch_model.bin]
    in the model directory, a second call returns the same path at once --
    it logs that the file already exists and neither loads nor saves
    anything. *)
Theorem convert_safetensors_once
        (env : Env) (st : SafetensorsEnv) (model_path : Path) (w : World)
        (model : Model) (after : FS) :
  let pytorch_model_path := model_path // "pytorch_model.bin" in
  Fs.exists_ (fs w) pytorch_model_path = false ->
  import_module env "torch" = None ->
  import_module env "transformers" = None ->
  load_safetensors st model_path (fs w) = inr model ->
  save_pretrained st model model_path (fs w) = inr after ->
  Fs.exists_ after pytorch_model_path = true ->
  exists w1,
    convert_safetensors_to_pytorch env st model_path w
    = Ok pytorch_model_path w1
    /\ fs w1 = after
    /\ trace w1 = (trace w ++ [FromPretrained model_path])%list
    /\ convert_safetensors_to_pytorch env st model_path w1
       = Ok pytorch_model_path
            (with_log w1 [(INFO, "✅ pytorch_model.bin already exists")]).
Proof.
  intros pytorch_model_path Hex Htorch Htrans Hload Hsave Hafter.
  subst pytorch_model_path. eexists. split; [|split; [|split]].
  - unfold convert_safetensors_to_pytorch, convert_safetensors_body. cbv zeta.
    unfold bind at 1, path_exists at 1. rewrite Hex.
    unfold import. rewrite Htorch, Htrans. unfold_monad.
    rewrite Hload. unfold_monad. rewrite Hsave. unfold_monad. reflexivity.
  - reflexivity.
  - reflexivity.
  - unfold convert_safetensors_to_pytorch. cbv zeta.
    unfold bind at 1, path_exists at 1. cbn [fs]. now rewrite Hafter.
Qed.

Lemma convert_safetensors_once_witness :
  exists w1,
    convert_safetensors_to_pytorch
      (Example.env_with Example.whisper_config 0 "") Scenario.safetensors_ok
      Example.model_path (Example.world_with Scenario.trained_only)
    = Ok (Example.model_path // "pytorch_model.bin") w1
    /\ convert_safetensors_to_pytorch
         (Example.env_with Example.whisper_config 0 "") Scenario.safetensors_ok
         Example.model_path w1
       = Ok (Example.model_path // "pytorch_model.bin")
            (with_log w1 [(INFO, "✅ pytorch_model.bin already exists")]).
Proof.
  edestruct (convert_safetensors_once
               (Example.env_with Example.whisper_config 0 "")
               Scenario.safetensors_ok Example.model_path
               (Example.world_with Scenario.trained_only))
    as (w1 & Hfirst & _ & _ & Hsecond).
  - reflexivity.
  - reflexivity.
  - reflexivity.
  - reflexivity.
  - reflexivity.
  - reflexivity.
  - exists w1. split; [exact Hfirst | exact Hsecond].
Defined.

(* ================================================================== *)
(** * download_whisper_cpp: all its runs *)

(** X19.  In every run [download_whisper_cpp] starts no subprocess, or
    [git clone] alone, or [git clone] followed by [make] in [./whisper.cpp]
    -- never [make] without the clone, never anything else -- and when it
    returns, it returns [Path("./whisper.cpp")]. *)
Theorem download_whisper_cpp_runs (env : Env) (w : World) :
  let outcome := download_whisper_cpp env w in
  (exists started,
      trace (world_of outcome) = (trace w ++ started)%list
      /\ (started = []
          \/ started = [SubprocessRun git_clone (Some (cwd env))]
          \/ started = [ SubprocessRun git_clone (Some (cwd env));
                         SubprocessRun ["make"] (Some whisper_cpp) ]))
  /\ match outcome with
     | Ok whisper_cpp_dir _ => whisper_cpp_dir = whisper_cpp
     | Raise _ _ => True
     end.
Proof.
  cbv zeta. unfold download_whisper_cpp. cbv zeta.
  fold whisper_cpp. fold git_clone. unfold_monad.
  destruct (Fs.exists_ (fs w) whisper_cpp).
  { cbn [world_of trace]. split; [|reflexivity].
    exists []. split; [now rewrite app_nil_r | now left]. }
  destruct (subprocess_run env git_clone (Some (cwd env)) (fs w))
    as [e|[cloned fs1]]; unfold_monad.
  { split; [|exact I]. eexists. split; [reflexivity|]. right. now left. }
  destruct (returncode cloned =? 0); cbn [negb]; unfold_monad.
  2:{ split; [|exact I]. eexists. split; [reflexivity|]. right. now left. }
  destruct (subprocess_run env ["make"] (Some whisper_cpp) fs1)
    as [e|[built fs2]]; unfold_monad.
  { split; [|exact I]. eexists.
    split; [now rewrite <- app_assoc|]. right. now right. }
  destruct (returncode built =? 0); cbn [negb world_of trace];
    (split; [|try reflexivity; exact I]);
    eexists; (split; [now rewrite <- app_assoc|]); right; now right.
Qed.
